(** * setup_nba_lake: the data-lake provisioning and query pipeline

    A shallow embedding of [src/data/src/setup_nba_lake.py].  The script
    talks to four remote services (S3, Glue, Athena and the sports-data HTTP
    API) and to the console.  Every remote call is answered by a [World], a
    record of stub functions, and every observable action (a remote call, a
    [print], a [time.sleep], the entry into one of the script's functions) is
    appended to a trace of events.  A Python function becomes a Rocq function
    into the monad [M], which carries the trace and the way the function
    ended: it returned a value, it raised an exception that nothing caught,
    or its [while True] loop was still running when the fuel ran out. *)

From Stdlib Require Import List String Ascii ZArith NArith Lia Bool.
From Stdlib Require Import Decimal DecimalString.
From Stdlib Require Hexadecimal HexadecimalString.
Import ListNotations.
Open Scope string_scope.

Set Warnings "-register-all".

(** ** Python text *)

Module PyText.

(** Characters the embedding names rather than writes inside a string
    literal. *)
Definition newline_char : ascii := "010"%char.
Definition dquote_char : ascii := "034"%char.
Definition backslash_char : ascii := "092"%char.

Definition newline : string := String newline_char "".
Definition dquote : string := String dquote_char "".
Definition backslash : string := String backslash_char "".

(** A Python [str] that comes out of a JSON document is a sequence of
    Unicode code points. *)
Definition pystr := list N.

Definition pystr_of_string (s : string) : pystr :=
  map N_of_ascii (list_ascii_of_string s).

(** [str(n)] for a Python integer, as CPython writes it when it does write
    it: the conversion of an integer of more than 4300 digits is refused
    with a [ValueError], which this function does not model.  The bound is
    [Json.int_within_limit]; a statement about the serialization of
    arbitrary values carries it as a hypothesis. *)
Definition int_str (z : Z) : string := NilZero.string_of_int (Z.to_int z).

(** [one_line s]: no newline character occurs in [s]. *)
Fixpoint one_line (s : string) : bool :=
  match s with
  | EmptyString => true
  | String c s' => negb (Ascii.eqb c newline_char) && one_line s'
  end.

(** [s.split(sep)] for a one-character separator: the pieces between the
    occurrences of [sep], in order; a string with no separator is one
    piece. *)
Fixpoint split_on (sep : ascii) (s : string) : list string :=
  match s with
  | EmptyString => [EmptyString]
  | String c s' =>
      if Ascii.eqb c sep then EmptyString :: split_on sep s'
      else match split_on sep s' with
           | piece :: pieces => String c piece :: pieces
           | [] => [String c EmptyString]
           end
  end.

Definition lines (s : string) : list string := split_on newline_char s.

(** [s.endswith(newline)]. *)
Fixpoint ends_with_newline (s : string) : bool :=
  match s with
  | EmptyString => false
  | String c EmptyString => Ascii.eqb c newline_char
  | String _ s' => ends_with_newline s'
  end.

Definition nonempty (s : string) : bool :=
  match s with
  | EmptyString => false
  | String _ _ => true
  end.

End PyText.
Import PyText.

(** ** JSON values and [json.dumps] *)

Module Json.

(** A Python [float] is identified with the text [repr] prints for it:
    [nan], an infinity, or a decimal literal with an optional fraction and
    an optional exponent. *)
Inductive pyfloat :=
| FNaN
| FInfinity (negative : bool)
| FFinite (negative : bool) (int_part : uint) (frac_part : option uint)
          (exponent : option Z).

(** What [response.json()] can return: the Python image of a JSON
    document.  An object keeps its members in document order. *)
Inductive value :=
| JNull
| JBool (b : bool)
| JInt (z : Z)
| JFloat (f : pyfloat)
| JStr (s : pystr)
| JArr (items : list value)
| JObj (members : list (pystr * value)).

(** The format [{0:04x}]: lower-case hexadecimal, padded with zeros on the
    left to four digits. *)
Definition pad_left (width : nat) (s : string) : string :=
  string_of_list_ascii (repeat "0"%char (width - String.length s)) ++ s.

Definition format_04x (n : N) : string :=
  pad_left 4 (HexadecimalString.NilZero.string_of_uint (N.to_hex_uint n)).

(** [json.encoder.py_encode_basestring_ascii]: one code point.  Printable
    ASCII other than the quote and the backslash stands for itself; the
    quote, the backslash and five control characters have two-character
    escapes; everything else is written as [\uXXXX], a code point above
    the basic plane as a surrogate pair. *)
Definition escape_code_point (c : N) : string :=
  if (c =? 34)%N then backslash ++ dquote
  else if (c =? 92)%N then backslash ++ backslash
  else if (c =? 10)%N then backslash ++ "n"
  else if (c =? 13)%N then backslash ++ "r"
  else if (c =? 9)%N then backslash ++ "t"
  else if (c =? 8)%N then backslash ++ "b"
  else if (c =? 12)%N then backslash ++ "f"
  else if ((32 <=? c) && (c <=? 126))%N then String (ascii_of_N c) ""
  else if (c <? 65536)%N then backslash ++ "u" ++ format_04x c
  else
    let n := (c - 65536)%N in
    let s1 := N.lor 55296 (N.land (N.shiftr n 10) 1023) in
    let s2 := N.lor 56320 (N.land n 1023) in
    backslash ++ "u" ++ format_04x s1 ++ backslash ++ "u" ++ format_04x s2.

Definition encode_basestring_ascii (s : pystr) : string :=
  dquote ++ String.concat "" (map escape_code_point s) ++ dquote.

(** [float.__repr__] as [json.dumps] uses it, with its own spelling of the
    three values that are not finite. *)
Definition exponent_str (e : Z) : string :=
  "e" ++ (if (e <? 0)%Z then "-" else "+") ++ pad_left 2 (int_str (Z.abs e)).

Definition float_str (f : pyfloat) : string :=
  match f with
  | FNaN => "NaN"
  | FInfinity false => "Infinity"
  | FInfinity true => "-Infinity"
  | FFinite neg ip fp ex =>
      (if neg then "-" else "") ++
      DecimalString.NilZero.string_of_uint ip ++
      match fp with
      | Some d => "." ++ DecimalString.NilZero.string_of_uint d
      | None => ""
      end ++
      match ex with
      | Some e => exponent_str e
      | None => ""
      end
  end.

(** [json.dumps(v)] with its default arguments: [ensure_ascii=True], no
    indentation, the separators [", "] and [": "]. *)
Fixpoint dumps (v : value) : string :=
  match v with
  | JNull => "null"
  | JBool true => "true"
  | JBool false => "false"
  | JInt z => int_str z
  | JFloat f => float_str f
  | JStr s => encode_basestring_ascii s
  | JArr items => "[" ++ String.concat ", " (map dumps items) ++ "]"
  | JObj members =>
      "{" ++
      String.concat ", "
        (map (fun kv => encode_basestring_ascii (fst kv) ++ ": " ++ dumps (snd kv))
             members) ++
      "}"
  end.

(** Truth value of a Python object in a condition ([if v:]). *)
Fixpoint uint_is_zero (d : uint) : bool :=
  match d with
  | Decimal.Nil => true
  | Decimal.D0 d' => uint_is_zero d'
  | _ => false
  end.

Definition float_truthy (f : pyfloat) : bool :=
  match f with
  | FNaN | FInfinity _ => true
  | FFinite _ ip fp _ =>
      negb (uint_is_zero ip &&
            match fp with Some d => uint_is_zero d | None => true end)
  end.

Definition truthy (v : value) : bool :=
  match v with
  | JNull => false
  | JBool b => b
  | JInt z => negb (z =? 0)%Z
  | JFloat f => float_truthy f
  | JStr s => negb (Nat.eqb (List.length s) 0)
  | JArr items => negb (Nat.eqb (List.length items) 0)
  | JObj members => negb (Nat.eqb (List.length members) 0)
  end.

(** The values [json.dumps] serializes without raising.  CPython refuses to
    write an integer of more than 4300 digits ([ValueError]), and gives up
    on a value nested deeper than the recursion limit of the interpreter
    leaves room for ([RecursionError]); [max_nesting] is a depth every
    interpreter has room for. *)
Definition max_str_digits : nat := 4300.
Definition max_nesting : nat := 100.

Definition int_within_limit (z : Z) : bool :=
  (String.length (int_str (Z.abs z)) <=? max_str_digits)%nat.

Fixpoint ints_within_limit (v : value) : bool :=
  match v with
  | JInt z => int_within_limit z
  | JArr items => forallb ints_within_limit items
  | JObj members => forallb (fun kv => ints_within_limit (snd kv)) members
  | _ => true
  end.

Fixpoint nesting (v : value) : nat :=
  match v with
  | JArr items => S (list_max (map nesting items))
  | JObj members => S (list_max (map (fun kv => nesting (snd kv)) members))
  | _ => 0
  end.

Definition serializable (v : value) : bool :=
  ints_within_limit v && (nesting v <=? max_nesting)%nat.

End Json.

(** ** Effects: exceptions, events, the world and the monad *)

Module Effects.

(** The exceptions the script can meet, by the classes its handlers tell
    apart.  All three are subclasses of [Exception]; the string is what
    [str(e)] gives. *)
Inductive exn :=
| ClientError (code message : string)
| HTTPError (message : string)
| OtherException (class message : string).

Definition exn_str (e : exn) : string :=
  match e with
  | ClientError _ m => m
  | HTTPError m => m
  | OtherException _ m => m
  end.

(** The three [except] clauses of the script. *)
Definition except_ClientError (e : exn) : bool :=
  match e with ClientError _ _ => true | _ => false end.
Definition except_HTTPError (e : exn) : bool :=
  match e with HTTPError _ => true | _ => false end.
Definition except_Exception (e : exn) : bool := true.

(** The answer of a remote service to one call. *)
Inductive outcome (A : Type) :=
| Ok (a : A)
| Fails (e : exn).
Arguments Ok {A} a.
Arguments Fails {A} e.

(** An HTTP response as [requests] hands it over; [body] is [None] when
    the payload is not a JSON document. *)
Record response := {
  status_code : Z;
  reason : string;
  url : string;
  body : option Json.value
}.

(** The [TableInput] argument of Glue's [create_table]. *)
Record column := { col_name : string; col_type : string }.
Record table_input := {
  ti_name : string;
  ti_columns : list column;
  ti_location : string;
  ti_input_format : string;
  ti_output_format : string;
  ti_serialization_library : string;
  ti_table_type : string
}.

(** A row of an Athena result set: its data, each with or without a
    [VarCharValue]. *)
Definition row := list (option string).

(** The functions of the script. *)
Inductive func :=
| f_create_s3_bucket
| f_create_glue_database
| f_fetch_nba_players
| f_convert_to_line_delimited_json
| f_upload_data_to_s3
| f_create_glue_table
| f_configure_athena
| f_query_athena
| f_main.

(** What a run does, in order.  [Call f] marks the entry into [f].  A
    [print] of plain text records the line; a [print] of a Python object
    records the object. *)
Inductive event :=
| Call (f : func)
| Print (line : string)
| PrintHeaders (subscription_key : option string)
| PrintRow (r : row)
| Sleep (seconds : nat)
| S3CreateBucket (bucket location_constraint : string)
| GlueCreateDatabase (name description : string)
| RequestsGet (endpoint subscription_key : option string)
| S3PutObject (bucket key body : string)
| GlueCreateTable (database : string) (t : table_input)
| AthenaStartQueryExecution (query database output_location : string)
| AthenaGetQueryExecution (id : string)
| AthenaGetQueryResults (id : string).

(** The remote services, as stubs.  [athena_get_query_execution w id k] is
    the state Athena reports at the poll number [k] (from 0) of the
    job [id]. *)
Record World := {
  s3_create_bucket : string -> string -> outcome unit;
  glue_create_database : string -> string -> outcome unit;
  requests_get : option string -> option string -> outcome response;
  s3_put_object : string -> string -> string -> outcome unit;
  glue_create_table : string -> table_input -> outcome unit;
  athena_start_query_execution : string -> string -> string -> outcome string;
  athena_get_query_execution : string -> nat -> outcome string;
  athena_get_query_results : string -> outcome (list row)
}.

(** How a Python function ends. *)
Inductive result (A : Type) :=
| Returned (a : A)
| Raised (e : exn)
| Running.
Arguments Returned {A} a.
Arguments Raised {A} e.
Arguments Running {A}.

Definition M (A : Type) : Type := (list event * result A)%type.

Definition trace {A} (m : M A) : list event := fst m.
Definition ending {A} (m : M A) : result A := snd m.

Definition ret {A} (a : A) : M A := ([], Returned a).

Definition bind {A B} (m : M A) (k : A -> M B) : M B :=
  match snd m with
  | Returned a => ((fst m ++ fst (k a))%list, snd (k a))
  | Raised e => (fst m, Raised e)
  | Running => (fst m, Running)
  end.

Definition emit (e : event) : M unit := ([e], Returned tt).

Definition raise {A} (e : exn) : M A := ([], Raised e).

(** A call of a remote service: the event, then the stub's answer. *)
Definition remote {A} (e : event) (o : outcome A) : M A :=
  ([e], match o with Ok a => Returned a | Fails x => Raised x end).

(** [try: m  except C as e: handler e]. *)
Definition try_except {A} (m : M A) (C : exn -> bool) (handler : exn -> M A)
  : M A :=
  match snd m with
  | Raised e =>
      if C e then ((fst m ++ fst (handler e))%list, snd (handler e)) else m
  | _ => m
  end.

End Effects.
Import Effects.

Declare Scope py_scope.
Delimit Scope py_scope with py.
Notation "x <- m ;; k" := (bind m (fun x => k))
  (at level 61, m at next level, right associativity) : py_scope.
Notation "m ;; k" := (bind m (fun _ => k))
  (at level 61, right associativity) : py_scope.
Open Scope py_scope.

(** ** The script *)

(** The module-level configuration (lines 12-21 of the script). *)
Record Config := {
  region : string;
  bucket_name : string;
  glue_database_name : string;
  glue_table_name : string;
  api_key : option string;
  nba_endpoint : option string
}.

Definition athena_output_location (cfg : Config) : string :=
  "s3://" ++ bucket_name cfg ++ "/athena-results/".

(** The configuration the script builds from the three environment variables
    [AWS_DEFAULT_REGION], [SPORTS_DATA_API_KEY] and [NBA_ENDPOINT]; an unset
    variable is [None]. *)
Definition load_config (aws_default_region key endpoint : option string)
  : Config :=
  {| region := match aws_default_region with
               | Some r => r
               | None => "ap-southeast-2"
               end;
     bucket_name := "bai-xu-sports-analytics-data-lake";
     glue_database_name := "xu-glue_nba_data_lake";
     glue_table_name := "nba_players";
     api_key := key;
     nba_endpoint := endpoint |}.

(** [f"{v}"] for a value that is a string or [None]. *)
Definition str_of_optional (v : option string) : string :=
  match v with
  | Some s => s
  | None => "None"
  end.

(** *** The HTTP client library, as the script uses it *)

(** [response.raise_for_status()]: an [HTTPError] for the statuses 4xx and
    5xx, nothing for any other status. *)
Definition raise_for_status (r : response) : M unit :=
  if ((400 <=? status_code r) && (status_code r <? 500))%Z then
    raise (HTTPError (int_str (status_code r) ++ " Client Error: " ++
                      reason r ++ " for url: " ++ url r))
  else if ((500 <=? status_code r) && (status_code r <? 600))%Z then
    raise (HTTPError (int_str (status_code r) ++ " Server Error: " ++
                      reason r ++ " for url: " ++ url r))
  else ret tt.

(** [response.json()]: the decoded body, or a decoding error, which is not
    an [HTTPError]. *)
Definition response_json (r : response) : M Json.value :=
  match body r with
  | Some v => ret v
  | None => raise (OtherException "JSONDecodeError"
                     "Expecting value: line 1 column 1 (char 0)")
  end.

(** [for record in data]: the elements of a list, the keys of a dict, the
    characters of a string; anything else is not iterable. *)
Definition type_name (v : Json.value) : string :=
  match v with
  | Json.JNull => "NoneType"
  | Json.JBool _ => "bool"
  | Json.JInt _ => "int"
  | Json.JFloat _ => "float"
  | Json.JStr _ => "str"
  | Json.JArr _ => "list"
  | Json.JObj _ => "dict"
  end.

Definition iterate (v : Json.value) : M (list Json.value) :=
  match v with
  | Json.JArr items => ret items
  | Json.JObj members => ret (map (fun kv => Json.JStr (fst kv)) members)
  | Json.JStr s => ret (map (fun c => Json.JStr [c]) s)
  | _ => raise (OtherException "TypeError"
                  ("'" ++ type_name v ++ "' object is not iterable"))
  end.

(** *** The functions of the script *)

Section Script.

Variable w : World.

Definition create_s3_bucket (bucket_name region : string) : M unit :=
  emit (Call f_create_s3_bucket) ;;
  try_except
    (remote (S3CreateBucket bucket_name region)
            (s3_create_bucket w bucket_name region) ;;
     emit (Print ("Bucket " ++ bucket_name ++ " created successfully.")))
    except_ClientError
    (fun e => emit (Print ("Error while creating bucket: " ++ exn_str e))).

Definition create_glue_database (cfg : Config) : M unit :=
  emit (Call f_create_glue_database) ;;
  try_except
    (remote (GlueCreateDatabase (glue_database_name cfg)
               "Glue database for NBA sports analytics.")
            (glue_create_database w (glue_database_name cfg)
               "Glue database for NBA sports analytics.") ;;
     emit (Print ("Glue database '" ++ glue_database_name cfg ++
                  "' created successfully.")))
    except_Exception
    (fun e => emit (Print ("Error creating Glue database: " ++ exn_str e))).

(** Returns the decoded document, or [None] (here [JNull]) after an
    [HTTPError]. *)
Definition fetch_nba_players (api_key nba_endpoint : option string)
  : M Json.value :=
  emit (Call f_fetch_nba_players) ;;
  emit (PrintHeaders api_key) ;;
  try_except
    (response <- remote (RequestsGet nba_endpoint api_key)
                        (requests_get w nba_endpoint api_key) ;;
     raise_for_status response ;;
     response_json response)
    except_HTTPError
    (fun err =>
       emit (Print ("Error while fetching NBA players data: " ++ exn_str err)) ;;
       ret Json.JNull).

Definition convert_to_line_delimited_json (data : Json.value) : M string :=
  emit (Call f_convert_to_line_delimited_json) ;;
  emit (Print "Converting data to line-delimited JSON format...") ;;
  records <- iterate data ;;
  ret (String.concat newline (map Json.dumps records)).

Definition upload_data_to_s3 (cfg : Config) (data : Json.value) : M unit :=
  emit (Call f_upload_data_to_s3) ;;
  try_except
    (line_delimited_data <- convert_to_line_delimited_json data ;;
     let file_key := "raw-data/nba_player_data.jsonl" in
     remote (S3PutObject (bucket_name cfg) file_key line_delimited_data)
            (s3_put_object w (bucket_name cfg) file_key line_delimited_data) ;;
     emit (Print ("Uploaded data to S3: " ++ file_key)))
    except_Exception
    (fun e => emit (Print ("Error uploading data to S3: " ++ exn_str e))).

Definition nba_players_table (cfg : Config) : table_input :=
  {| ti_name := "nba_players";
     ti_columns :=
       [ {| col_name := "PlayerID"; col_type := "int" |};
         {| col_name := "FirstName"; col_type := "string" |};
         {| col_name := "LastName"; col_type := "string" |};
         {| col_name := "Team"; col_type := "string" |};
         {| col_name := "Position"; col_type := "string" |};
         {| col_name := "Points"; col_type := "int" |} ];
     ti_location := "s3://" ++ bucket_name cfg ++ "/raw-data/";
     ti_input_format := "org.apache.hadoop.mapred.TextInputFormat";
     ti_output_format :=
       "org.apache.hadoop.hive.ql.io.HiveIgnoreKeyTextOutputFormat";
     ti_serialization_library := "org.openx.data.jsonserde.JsonSerDe";
     ti_table_type := "EXTERNAL_TABLE" |}.

Definition create_glue_table (cfg : Config) : M unit :=
  emit (Call f_create_glue_table) ;;
  try_except
    (remote (GlueCreateTable (glue_database_name cfg) (nba_players_table cfg))
            (glue_create_table w (glue_database_name cfg)
               (nba_players_table cfg)) ;;
     emit (Print "Glue table 'nba_players' created successfully."))
    except_Exception
    (fun e => emit (Print ("Error creating Glue table: " ++ exn_str e))).

Definition configure_athena (cfg : Config) : M unit :=
  emit (Call f_configure_athena) ;;
  try_except
    (remote (AthenaStartQueryExecution
               "CREATE DATABASE IF NOT EXISTS nba_analytics"
               (glue_database_name cfg) (athena_output_location cfg))
            (athena_start_query_execution w
               "CREATE DATABASE IF NOT EXISTS nba_analytics"
               (glue_database_name cfg) (athena_output_location cfg)) ;;
     emit (Print "Athena output location configured successfully."))
    except_Exception
    (fun e => emit (Print ("Error configuring Athena: " ++ exn_str e))).

(** [query_state in ['SUCCEEDED', 'FAILED', 'CANCELLED']]. *)
Definition terminal (query_state : string) : bool :=
  existsb (String.eqb query_state) ["SUCCEEDED"; "FAILED"; "CANCELLED"].

(** The [while True] loop of [query_athena], from its poll number [k] on:
    ask for the state, leave the loop with it when it is terminal, sleep
    one second and go round again when it is not.  The loop has no bound
    of its own; [fuel] bounds the number of polls the model follows. *)
Fixpoint wait_for_query (fuel : nat) (query_execution_id : string) (k : nat)
  : M string :=
  match fuel with
  | O => ([], Running)
  | S fuel' =>
      query_state <- remote (AthenaGetQueryExecution query_execution_id)
                       (athena_get_query_execution w query_execution_id k) ;;
      if terminal query_state then ret query_state
      else emit (Sleep 1) ;;
           wait_for_query fuel' query_execution_id (S k)
  end.

Definition count_query (database table : string) : string :=
  "SELECT COUNT(*) FROM " ++ dquote ++ database ++ dquote ++ "." ++
  dquote ++ table ++ dquote ++ ";".

(** Returns the rows, or [None] when the query did not succeed or a
    [ClientError] was caught. *)
Definition query_athena (fuel : nat) (database table output_location : string)
  : M (option (list row)) :=
  emit (Call f_query_athena) ;;
  let query := count_query database table in
  try_except
    (query_execution_id <-
       remote (AthenaStartQueryExecution query database output_location)
              (athena_start_query_execution w query database output_location) ;;
     emit (Print ("Query Execution ID: " ++ query_execution_id)) ;;
     query_state <- wait_for_query fuel query_execution_id 0 ;;
     if String.eqb query_state "SUCCEEDED" then
       rows <- remote (AthenaGetQueryResults query_execution_id)
                      (athena_get_query_results w query_execution_id) ;;
       ret (Some rows)
     else
       emit (Print ("Query failed with state: " ++ query_state)) ;;
       ret None)
    except_ClientError
    (fun e =>
       emit (Print ("Error while querying Athena: " ++ exn_str e)) ;;
       ret None).

(** [if athena_results:] is taken for a list of rows that is not empty. *)
Definition results_truthy (athena_results : option (list row)) : bool :=
  match athena_results with
  | Some (_ :: _) => true
  | _ => false
  end.

(** [for row in athena_results: print(row)]. *)
Definition print_rows (athena_results : option (list row)) : M unit :=
  match athena_results with
  | Some rows => (map PrintRow rows, Returned tt)
  | None => raise (OtherException "TypeError"
                     "'NoneType' object is not iterable")
  end.

(** The last statement of [main]: the report on the query. *)
Definition report (athena_results : option (list row)) : M unit :=
  if results_truthy athena_results then
    emit (Print "Athena query results:") ;;
    print_rows athena_results
  else emit (Print "Failed to query Athena.").

Definition main (fuel : nat) (cfg : Config) : M unit :=
  emit (Call f_main) ;;
  emit (Print "Setting up data lake for NBA sports analytics...") ;;
  create_s3_bucket (bucket_name cfg) (region cfg) ;;
  emit (Sleep 5) ;;
  create_glue_database cfg ;;
  nba_data <- fetch_nba_players (api_key cfg) (nba_endpoint cfg) ;;
  (if Json.truthy nba_data then upload_data_to_s3 cfg nba_data else ret tt) ;;
  create_glue_table cfg ;;
  configure_athena cfg ;;
  emit (Print "Data lake setup complete.") ;;
  athena_results <- query_athena fuel (glue_database_name cfg)
                      (glue_table_name cfg) (athena_output_location cfg) ;;
  report athena_results.

(** What the script does on the console and with the services when its
    three module-level clients are constructed: the module-level [print] of
    the loaded key, then [main].  The construction of the clients, which
    can end the run before [main], is in [program] below. *)
Definition script (fuel : nat) (cfg : Config) : M unit :=
  emit (Print ("Loaded API Key: " ++ str_of_optional (api_key cfg))) ;;
  main fuel cfg.

End Script.

(** *** The module, run as a program *)

(** [boto3.client(service, region_name=region)] builds a client inside the
    process and calls no service.  The library refuses a region name it
    cannot use, with an exception that is no [ClientError].  Its answer is
    a stub, like the answers of the services. *)
Definition Boto3 : Type := string -> string -> outcome unit.

(** A call of a library that stays inside the process: no event, the
    stub's answer. *)
Definition construct {A} (o : outcome A) : M A :=
  ([], match o with Ok a => Returned a | Fails e => Raised e end).

(** The three module-level clients (lines 27-29). *)
Definition create_clients (boto3_client : Boto3) (cfg : Config) : M unit :=
  construct (boto3_client "s3" (region cfg)) ;;
  construct (boto3_client "glue" (region cfg)) ;;
  construct (boto3_client "athena" (region cfg)).

(** The whole module in the order of its statements: the [print] of the
    loaded key (line 24), the construction of the three clients (lines
    27-29), and the call of [main] (lines 191-192). *)
Definition program (boto3_client : Boto3) (w : World) (fuel : nat)
           (cfg : Config) : M unit :=
  emit (Print ("Loaded API Key: " ++ str_of_optional (api_key cfg))) ;;
  create_clients boto3_client cfg ;;
  main w fuel cfg.

(** The library builds all three clients. *)
Definition clients_constructed (boto3_client : Boto3) (cfg : Config) : bool :=
  forallb (fun service =>
             match boto3_client service (region cfg) with
             | Ok _ => true
             | Fails _ => false
             end)
          ["s3"; "glue"; "athena"].

(** ** Observations on a run *)

(** The functions entered during a run, in order. *)
Definition calls (t : list event) : list func :=
  flat_map (fun e => match e with Call f => [f] | _ => [] end) t.

(** The states of the Pipeline Driver; [DONE] is the normal return of
    [main]. *)
Inductive pipeline_state :=
| BUCKET | DATABASE | FETCH | UPLOAD | TABLE | QUERY_SETUP | QUERY_RUN | DONE.

Definition state_of_func (f : func) : list pipeline_state :=
  match f with
  | f_create_s3_bucket => [BUCKET]
  | f_create_glue_database => [DATABASE]
  | f_fetch_nba_players => [FETCH]
  | f_upload_data_to_s3 => [UPLOAD]
  | f_create_glue_table => [TABLE]
  | f_configure_athena => [QUERY_SETUP]
  | f_query_athena => [QUERY_RUN]
  | f_convert_to_line_delimited_json | f_main => []
  end.

(** The states a run of [main] went through: one per step entered, then
    [DONE] if [main] returned. *)
Definition states_visited (m : M unit) : list pipeline_state :=
  (flat_map state_of_func (calls (trace m)) ++
   match ending m with
   | Returned _ => [DONE]
   | _ => []
   end)%list.

(** The calls that leave the process. *)
Definition is_remote_call (e : event) : bool :=
  match e with
  | S3CreateBucket _ _ | GlueCreateDatabase _ _ | RequestsGet _ _
  | S3PutObject _ _ _ | GlueCreateTable _ _
  | AthenaStartQueryExecution _ _ _ | AthenaGetQueryExecution _
  | AthenaGetQueryResults _ => true
  | _ => false
  end.

Definition remote_calls (t : list event) : list event :=
  filter is_remote_call t.

Definition is_get_query_results (e : event) : bool :=
  match e with AthenaGetQueryResults _ => true | _ => false end.

Definition is_put_object (e : event) : bool :=
  match e with S3PutObject _ _ _ => true | _ => false end.

Definition count (p : event -> bool) (t : list event) : nat :=
  List.length (filter p t).

(** The [Location] of every table a run registered, and the address of
    every object it wrote. *)
Definition object_address (bucket key : string) : string :=
  "s3://" ++ bucket ++ "/" ++ key.

Definition table_locations (t : list event) : list string :=
  flat_map (fun e => match e with
                     | GlueCreateTable _ ti => [ti_location ti]
                     | _ => []
                     end) t.

Definition objects_written (t : list event) : list string :=
  flat_map (fun e => match e with
                     | S3PutObject bucket key _ => [object_address bucket key]
                     | _ => []
                     end) t.

(** The trace of a polling loop that met [n] states that were not terminal
    and then one that ended it: [n] times a poll and a sleep of one second,
    then the last poll. *)
Fixpoint polling_trace (query_execution_id : string) (n : nat) : list event :=
  match n with
  | O => [AthenaGetQueryExecution query_execution_id]
  | S n' =>
      AthenaGetQueryExecution query_execution_id :: Sleep 1 ::
      polling_trace query_execution_id n'
  end.

(** ** Which failures the handlers of a run catch *)

Definition caught_by {A} (C : exn -> bool) (o : outcome A) : bool :=
  match o with
  | Ok _ => true
  | Fails e => C e
  end.

Definition is_http_error_status (r : response) : bool :=
  ((400 <=? status_code r) && (status_code r <? 600))%Z.

(** Bucket creation succeeds or fails with a [ClientError]. *)
Definition bucket_failure_caught (w : World) (cfg : Config) : bool :=
  caught_by except_ClientError
    (s3_create_bucket w (bucket_name cfg) (region cfg)).

(** The HTTP request is answered, with an error status or with a JSON
    document, or fails with an [HTTPError]. *)
Definition fetch_failure_caught (w : World) (cfg : Config) : bool :=
  match requests_get w (nba_endpoint cfg) (api_key cfg) with
  | Ok r => is_http_error_status r ||
            match body r with Some _ => true | None => false end
  | Fails e => except_HTTPError e
  end.

(** The polls [0 .. m-1] of the job report states that are not terminal. *)
Definition polls_continue (w : World) (id : string) (m : nat) : Prop :=
  forall j, j < m ->
    exists s, athena_get_query_execution w id j = Ok s /\ terminal s = false.

(** The count query settles at its poll number [m]: the submission fails
    with a [ClientError], or the polls before [m] go on and the poll [m]
    fails with a [ClientError] or reports a terminal state, after which the
    results, asked for on SUCCEEDED, arrive or fail with a [ClientError]. *)
Definition query_settles (w : World) (cfg : Config) (m : nat) : Prop :=
  match athena_start_query_execution w
          (count_query (glue_database_name cfg) (glue_table_name cfg))
          (glue_database_name cfg) (athena_output_location cfg) with
  | Fails e => except_ClientError e = true
  | Ok id =>
      polls_continue w id m /\
      match athena_get_query_execution w id m with
      | Fails e => except_ClientError e = true
      | Ok s =>
          terminal s = true /\
          (s = "SUCCEEDED" ->
           caught_by except_ClientError (athena_get_query_results w id) = true)
      end
  end.

(** The three ways in which a query gives [main] nothing to print. *)
Inductive no_results (w : World) (cfg : Config) (m : nat) : Prop :=
| empty_success (id : string) :
    athena_start_query_execution w
      (count_query (glue_database_name cfg) (glue_table_name cfg))
      (glue_database_name cfg) (athena_output_location cfg) = Ok id ->
    polls_continue w id m ->
    athena_get_query_execution w id m = Ok "SUCCEEDED" ->
    athena_get_query_results w id = Ok [] ->
    no_results w cfg m
| terminal_failure (id state : string) :
    athena_start_query_execution w
      (count_query (glue_database_name cfg) (glue_table_name cfg))
      (glue_database_name cfg) (athena_output_location cfg) = Ok id ->
    polls_continue w id m ->
    athena_get_query_execution w id m = Ok state ->
    state = "FAILED" \/ state = "CANCELLED" ->
    no_results w cfg m
| submission_error (code message : string) :
    athena_start_query_execution w
      (count_query (glue_database_name cfg) (glue_table_name cfg))
      (glue_database_name cfg) (athena_output_location cfg)
    = Fails (ClientError code message) ->
    no_results w cfg m.

(** ** Remote operations *)

(** The operations of the remote services the script calls. *)
Inductive operation :=
| op_create_bucket
| op_create_database
| op_requests_get
| op_put_object
| op_create_table
| op_start_query_execution
| op_get_query_execution
| op_get_query_results.

Definition operation_of (e : event) : option operation :=
  match e with
  | S3CreateBucket _ _ => Some op_create_bucket
  | GlueCreateDatabase _ _ => Some op_create_database
  | RequestsGet _ _ => Some op_requests_get
  | S3PutObject _ _ _ => Some op_put_object
  | GlueCreateTable _ _ => Some op_create_table
  | AthenaStartQueryExecution _ _ _ => Some op_start_query_execution
  | AthenaGetQueryExecution _ => Some op_get_query_execution
  | AthenaGetQueryResults _ => Some op_get_query_results
  | _ => None
  end.

Definition operation_eqb (a b : operation) : bool :=
  match a, b with
  | op_create_bucket, op_create_bucket
  | op_create_database, op_create_database
  | op_requests_get, op_requests_get
  | op_put_object, op_put_object
  | op_create_table, op_create_table
  | op_start_query_execution, op_start_query_execution
  | op_get_query_execution, op_get_query_execution
  | op_get_query_results, op_get_query_results => true
  | _, _ => false
  end.

Definition uses (o : operation) (e : event) : bool :=
  match operation_of e with
  | Some o' => operation_eqb o o'
  | None => false
  end.

(** How many times a run called the operation [o]. *)
Definition attempts (o : operation) (t : list event) : nat := count (uses o) t.

(** [l1] is an initial part of [l2]. *)
Definition initial_part {A} (l1 l2 : list A) : Prop :=
  exists rest, l2 = (l1 ++ rest)%list.

(** ** Printable text *)

(** The ASCII characters from the space to the tilde. *)
Definition printable (c : ascii) : bool :=
  (32 <=? nat_of_ascii c)%nat && (nat_of_ascii c <=? 126)%nat.

Fixpoint all_printable (s : string) : bool :=
  match s with
  | EmptyString => true
  | String c s' => printable c && all_printable s'
  end.

(** Text whose characters are printable ASCII or newlines. *)
Fixpoint ascii_lines (s : string) : bool :=
  match s with
  | EmptyString => true
  | String c s' => (printable c || Ascii.eqb c newline_char) && ascii_lines s'
  end.

(** ** Stub worlds *)

Module Stubs.

(** Answers of the query service read from a list of states, one per
    poll; past the end of the list the job stays [RUNNING]. *)
Definition poll_from (states : list string) (id : string) (k : nat)
  : outcome string :=
  Ok (nth k states "RUNNING").

Definition player (id : Z) (first last team position : string) (points : Z)
  : Json.value :=
  Json.JObj
    [ (pystr_of_string "PlayerID", Json.JInt id);
      (pystr_of_string "FirstName", Json.JStr (pystr_of_string first));
      (pystr_of_string "LastName", Json.JStr (pystr_of_string last));
      (pystr_of_string "Team", Json.JStr (pystr_of_string team));
      (pystr_of_string "Position", Json.JStr (pystr_of_string position));
      (pystr_of_string "Points", Json.JInt points) ].

Definition two_players : Json.value :=
  Json.JArr [ player 20000441 "Bradley" "Beal" "PHO" "SG" 18;
              player 20000442 "John" "Wall" "LAC" "PG" 11 ].

Definition ok_response (document : Json.value) : response :=
  {| status_code := 200; reason := "OK";
     url := "https://api.sportsdata.io/v3/nba/scores/json/Players";
     body := Some document |}.

(** Every service answers; the request returns [document], the job goes
    through [states] and the result set is [rows]. *)
Definition world (document : Json.value) (states : list string)
           (rows : list row) : World :=
  {| s3_create_bucket := fun _ _ => Ok tt;
     glue_create_database := fun _ _ => Ok tt;
     requests_get := fun _ _ => Ok (ok_response document);
     s3_put_object := fun _ _ _ => Ok tt;
     glue_create_table := fun _ _ => Ok tt;
     athena_start_query_execution := fun _ _ _ => Ok "q-1";
     athena_get_query_execution := poll_from states;
     athena_get_query_results := fun _ => Ok rows |}.

Definition with_bucket (o : outcome unit) (w : World) : World :=
  {| s3_create_bucket := fun _ _ => o;
     glue_create_database := glue_create_database w;
     requests_get := requests_get w;
     s3_put_object := s3_put_object w;
     glue_create_table := glue_create_table w;
     athena_start_query_execution := athena_start_query_execution w;
     athena_get_query_execution := athena_get_query_execution w;
     athena_get_query_results := athena_get_query_results w |}.

Definition with_request (o : outcome response) (w : World) : World :=
  {| s3_create_bucket := s3_create_bucket w;
     glue_create_database := glue_create_database w;
     requests_get := fun _ _ => o;
     s3_put_object := s3_put_object w;
     glue_create_table := glue_create_table w;
     athena_start_query_execution := athena_start_query_execution w;
     athena_get_query_execution := athena_get_query_execution w;
     athena_get_query_results := athena_get_query_results w |}.

Definition count_row : list row := [[Some "_col0"]; [Some "2"]].

Definition cfg : Config :=
  load_config None (Some "0123456789abcdef")
    (Some "https://api.sportsdata.io/v3/nba/scores/json/Players").

(** The environment with neither the credential nor the endpoint. *)
Definition cfg_unset : Config := load_config None None None.

Definition already_exists : exn :=
  ClientError "BucketAlreadyOwnedByYou"
    "An error occurred (BucketAlreadyOwnedByYou) when calling the CreateBucket operation: Your previous request to create the named bucket succeeded and you already own it.".

Definition connection_error : exn :=
  OtherException "ConnectionError"
    "HTTPSConnectionPool(host='api.sportsdata.io', port=443): Max retries exceeded".

Definition missing_schema : exn :=
  OtherException "MissingSchema"
    "Invalid URL 'None': No scheme supplied. Perhaps you meant https://None?".

Definition not_found : response :=
  {| status_code := 404; reason := "Not Found";
     url := "https://api.sportsdata.io/v3/nba/scores/json/Players";
     body := None |}.

Definition multiple_choices (document : Json.value) : response :=
  {| status_code := 300; reason := "Multiple Choices";
     url := "https://api.sportsdata.io/v3/nba/scores/json/Players";
     body := Some document |}.

Definition access_denied : exn :=
  ClientError "AccessDeniedException"
    "An error occurred (AccessDeniedException): not authorized".

(** Every step meets a failure its handler catches, and the count query
    ends in FAILED at its second poll. *)
Definition failing_world : World :=
  {| s3_create_bucket := fun _ _ => Fails already_exists;
     glue_create_database := fun _ _ => Fails access_denied;
     requests_get := fun _ _ => Ok not_found;
     s3_put_object := fun _ _ _ => Fails access_denied;
     glue_create_table := fun _ _ => Fails access_denied;
     athena_start_query_execution :=
       fun query _ _ =>
         if String.eqb query "CREATE DATABASE IF NOT EXISTS nba_analytics"
         then Fails access_denied else Ok "q-1";
     athena_get_query_execution := poll_from ["RUNNING"; "FAILED"];
     athena_get_query_results := fun _ => Ok [] |}.

(** The job never leaves RUNNING. *)
Definition never_settling_world : World := world two_players [] count_row.

(** The HTTP request fails below HTTP: no response at all. *)
Definition unreachable_world : World :=
  with_request (Fails connection_error)
    (world two_players ["SUCCEEDED"] count_row).

(** The request is answered with a status that is neither 2xx nor an
    error status, and a JSON document. *)
Definition redirecting_world : World :=
  with_request (Ok (multiple_choices two_players))
    (world two_players ["SUCCEEDED"] count_row).

(** No endpoint is configured, so the HTTP library refuses the request. *)
Definition unconfigured_world : World :=
  with_request (Fails missing_schema)
    (world two_players ["SUCCEEDED"] count_row).

(** The query succeeds and its result set has no row. *)
Definition empty_success_world : World :=
  world two_players ["RUNNING"; "SUCCEEDED"] [].

(** The client library builds every client. *)
Definition clients_ok : Boto3 := fun _ _ => Ok tt.

Definition invalid_region : exn :=
  OtherException "InvalidRegionError"
    "Provided region_name 'not a region!' doesn't match a supported format.".

(** The client library refuses the region name. *)
Definition clients_refused : Boto3 := fun _ _ => Fails invalid_region.

(** An integer of 4301 digits. *)
Definition over_long_integer : Z := (10 ^ 4300)%Z.

Definition endpoint_unreachable : exn :=
  OtherException "EndpointConnectionError"
    "Could not connect to the endpoint URL".

(** The answer 200 carries a page of HTML, not a JSON document. *)
Definition html_response : response :=
  {| status_code := 200; reason := "OK";
     url := "https://api.sportsdata.io/v3/nba/scores/json/Players";
     body := None |}.

(** The answer 200 carries a JSON object, not a list of records. *)
Definition quota_message : Json.value :=
  Json.JObj
    [ (pystr_of_string "statusCode", Json.JInt 403);
      (pystr_of_string "message",
       Json.JStr (pystr_of_string "Out of call volume quota.")) ].

Definition with_results (o : outcome (list row)) (w : World) : World :=
  {| s3_create_bucket := s3_create_bucket w;
     glue_create_database := glue_create_database w;
     requests_get := requests_get w;
     s3_put_object := s3_put_object w;
     glue_create_table := glue_create_table w;
     athena_start_query_execution := athena_start_query_execution w;
     athena_get_query_execution := athena_get_query_execution w;
     athena_get_query_results := fun _ => o |}.

Definition with_polls (p : string -> nat -> outcome string) (w : World)
  : World :=
  {| s3_create_bucket := s3_create_bucket w;
     glue_create_database := glue_create_database w;
     requests_get := requests_get w;
     s3_put_object := s3_put_object w;
     glue_create_table := glue_create_table w;
     athena_start_query_execution := athena_start_query_execution w;
     athena_get_query_execution := p;
     athena_get_query_results := athena_get_query_results w |}.

Definition with_submission (o : outcome string) (w : World) : World :=
  {| s3_create_bucket := s3_create_bucket w;
     glue_create_database := glue_create_database w;
     requests_get := requests_get w;
     s3_put_object := s3_put_object w;
     glue_create_table := glue_create_table w;
     athena_start_query_execution := fun _ _ _ => o;
     athena_get_query_execution := athena_get_query_execution w;
     athena_get_query_results := athena_get_query_results w |}.

(** The second poll is refused. *)
Definition refused_at_second_poll (id : string) (k : nat) : outcome string :=
  match k with
  | O => Ok "RUNNING"
  | _ => Fails access_denied
  end.

End Stubs.

(** * Properties *)

(** Case analysis on every test a goal still branches on. *)
Ltac case_tests :=
  repeat match goal with
         | |- context [if ?b then _ else _] => destruct b eqn:?
         end.

(** ** The model at work *)

Example dumps_numbers :
  Json.dumps
    (Json.JArr
       [Json.JInt 20000441; Json.JInt (-3); Json.JNull; Json.JBool true;
        Json.JFloat (Json.FFinite false (D1 (D8 Nil)) (Some (D5 Nil)) None);
        Json.JFloat (Json.FFinite false (D1 Nil) (Some (D5 Nil)) (Some (-7)%Z))])
  = "[20000441, -3, null, true, 18.5, 1.5e-07]".
Proof. reflexivity. Qed.

Example dumps_escapes :
  Json.dumps (Json.JStr [68; 111; 110; 269; 10; 128512; 127]%N)
  = dquote ++ "Don" ++ backslash ++ "u010d" ++ backslash ++ "n" ++
    backslash ++ "ud83d" ++ backslash ++ "ude00" ++ backslash ++ "u007f" ++
    dquote.
Proof. reflexivity. Qed.

Example over_long_integer_not_serializable :
  Json.serializable
    (Json.JObj [(pystr_of_string "PlayerID",
                 Json.JInt Stubs.over_long_integer)]) = false /\
  Json.serializable
    (Json.JObj [(pystr_of_string "PlayerID",
                 Json.JInt (Stubs.over_long_integer - 1))]) = true.
Proof. split; vm_compute; reflexivity. Qed.

Example two_players_give_two_lines :
  map one_line
    (lines (String.concat newline
              (map Json.dumps
                 [Stubs.player 20000441 "Bradley" "Beal" "PHO" "SG" 18;
                  Stubs.player 20000442 "John" "Wall" "LAC" "PG" 11])))
  = [true; true].
Proof. reflexivity. Qed.

Example run_with_two_polls_before_success :
  calls (trace (main (Stubs.world Stubs.two_players
                        ["RUNNING"; "RUNNING"; "SUCCEEDED"] Stubs.count_row)
                  3 Stubs.cfg))
  = [f_main; f_create_s3_bucket; f_create_glue_database; f_fetch_nba_players;
     f_upload_data_to_s3; f_convert_to_line_delimited_json;
     f_create_glue_table; f_configure_athena; f_query_athena] /\
  ending (main (Stubs.world Stubs.two_players
                  ["RUNNING"; "RUNNING"; "SUCCEEDED"] Stubs.count_row)
            3 Stubs.cfg)
  = Returned tt /\
  ending (main (Stubs.world Stubs.two_players
                  ["RUNNING"; "RUNNING"; "SUCCEEDED"] Stubs.count_row)
            2 Stubs.cfg)
  = Running.
Proof. repeat split. Qed.

(** ** Text that stays on one line *)

Section OneLine.

Lemma one_line_app (a b : string) :
  one_line (a ++ b) = one_line a && one_line b.
Proof.
  induction a as [|c a IH]; simpl; [reflexivity|].
  now rewrite IH, andb_assoc.
Qed.

Lemma nonempty_app (a b : string) :
  nonempty (a ++ b) = nonempty a || nonempty b.
Proof. destruct a; reflexivity. Qed.

Lemma one_line_decimal (d : uint) :
  one_line (DecimalString.NilEmpty.string_of_uint d) = true.
Proof. induction d; simpl; auto. Qed.

Lemma one_line_decimal_zero (d : uint) :
  one_line (DecimalString.NilZero.string_of_uint d) = true.
Proof. destruct d; try reflexivity; apply one_line_decimal. Qed.

Lemma nonempty_decimal_zero (d : uint) :
  nonempty (DecimalString.NilZero.string_of_uint d) = true.
Proof. destruct d; reflexivity. Qed.

Lemma one_line_hexadecimal (d : Hexadecimal.uint) :
  one_line (HexadecimalString.NilEmpty.string_of_uint d) = true.
Proof. induction d; simpl; auto. Qed.

Lemma one_line_hexadecimal_zero (d : Hexadecimal.uint) :
  one_line (HexadecimalString.NilZero.string_of_uint d) = true.
Proof. destruct d; try reflexivity; apply one_line_hexadecimal. Qed.

Lemma one_line_int_str (z : Z) : one_line (int_str z) = true.
Proof.
  unfold int_str, DecimalString.NilZero.string_of_int.
  destruct (Z.to_int z); simpl; apply one_line_decimal_zero.
Qed.

Lemma nonempty_int_str (z : Z) : nonempty (int_str z) = true.
Proof.
  unfold int_str, DecimalString.NilZero.string_of_int.
  destruct (Z.to_int z); simpl; auto using nonempty_decimal_zero.
Qed.

Lemma one_line_zeros (n : nat) :
  one_line (string_of_list_ascii (repeat "0"%char n)) = true.
Proof. induction n; simpl; auto. Qed.

Lemma one_line_pad_left (width : nat) (s : string) :
  one_line s = true -> one_line (Json.pad_left width s) = true.
Proof.
  intros Hs. unfold Json.pad_left.
  now rewrite one_line_app, one_line_zeros, Hs.
Qed.

Lemma one_line_format_04x (n : N) : one_line (Json.format_04x n) = true.
Proof. apply one_line_pad_left, one_line_hexadecimal_zero. Qed.

Lemma printable_not_newline (c : N) :
  (32 <= c)%N -> (c <= 126)%N ->
  Ascii.eqb (ascii_of_N c) newline_char = false.
Proof.
  intros Hlo Hhi. apply Ascii.eqb_neq. intros Heq.
  apply (f_equal N_of_ascii) in Heq.
  rewrite N_ascii_embedding in Heq by lia.
  vm_compute in Heq. lia.
Qed.

Lemma one_line_escape_code_point (c : N) :
  one_line (Json.escape_code_point c) = true.
Proof.
  unfold Json.escape_code_point.
  case_tests; try reflexivity;
    repeat (rewrite one_line_app || rewrite one_line_format_04x);
    try reflexivity.
  simpl. rewrite andb_true_r.
  match goal with
  | H : (_ && _)%bool = true |- _ => apply andb_prop in H; destruct H as [Hlo Hhi]
  end.
  apply N.leb_le in Hlo. apply N.leb_le in Hhi.
  now rewrite printable_not_newline.
Qed.

Lemma one_line_concat (sep : string) (l : list string) :
  one_line sep = true -> Forall (fun s => one_line s = true) l ->
  one_line (String.concat sep l) = true.
Proof.
  intros Hsep Hl. induction Hl as [|x l Hx Hl IH]; [reflexivity|].
  destruct l as [|y l]; [exact Hx|].
  change (String.concat sep (x :: y :: l))
    with (x ++ sep ++ String.concat sep (y :: l)).
  now rewrite !one_line_app, Hx, Hsep, IH.
Qed.

Lemma one_line_encode_basestring_ascii (s : pystr) :
  one_line (Json.encode_basestring_ascii s) = true.
Proof.
  unfold Json.encode_basestring_ascii.
  rewrite !one_line_app, one_line_concat; try reflexivity.
  apply Forall_forall. intros x Hx. apply in_map_iff in Hx.
  destruct Hx as [c [<- _]]. apply one_line_escape_code_point.
Qed.

Lemma one_line_float_str (f : Json.pyfloat) :
  one_line (Json.float_str f) = true.
Proof.
  destruct f as [|[]|neg ip fp ex]; try reflexivity.
  unfold Json.float_str, Json.exponent_str.
  rewrite !one_line_app, one_line_decimal_zero.
  destruct neg, fp, ex; simpl;
    repeat (rewrite ?one_line_app, ?one_line_decimal_zero,
              ?one_line_pad_left, ?one_line_int_str; simpl);
    try reflexivity;
    destruct (_ <? 0)%Z; reflexivity.
Qed.

Lemma nonempty_float_str (f : Json.pyfloat) :
  nonempty (Json.float_str f) = true.
Proof.
  destruct f as [|[]|neg ip fp ex]; try reflexivity.
  unfold Json.float_str.
  rewrite !nonempty_app, nonempty_decimal_zero.
  now rewrite orb_true_r.
Qed.

End OneLine.

(** ** [json.dumps] writes one line *)

Section JsonInduction.

Variable P : Json.value -> Prop.
Hypothesis Hnull : P Json.JNull.
Hypothesis Hbool : forall b, P (Json.JBool b).
Hypothesis Hint : forall z, P (Json.JInt z).
Hypothesis Hfloat : forall f, P (Json.JFloat f).
Hypothesis Hstr : forall s, P (Json.JStr s).
Hypothesis Harr : forall items, Forall P items -> P (Json.JArr items).
Hypothesis Hobj :
  forall members, Forall (fun kv => P (snd kv)) members ->
                  P (Json.JObj members).

(** Induction on a JSON value with the hypothesis for every element of an
    array and every member of an object. *)
Fixpoint value_nested_ind (v : Json.value) : P v :=
  match v with
  | Json.JNull => Hnull
  | Json.JBool b => Hbool b
  | Json.JInt z => Hint z
  | Json.JFloat f => Hfloat f
  | Json.JStr s => Hstr s
  | Json.JArr items =>
      Harr items ((fix all (l : list Json.value) : Forall P l :=
               match l with
               | [] => Forall_nil P
               | x :: l' => Forall_cons x (value_nested_ind x) (all l')
               end) items)
  | Json.JObj members =>
      Hobj members ((fix all (l : list (pystr * Json.value))
               : Forall (fun kv => P (snd kv)) l :=
               match l with
               | [] => Forall_nil _
               | kv :: l' =>
                   Forall_cons kv (value_nested_ind (snd kv)) (all l')
               end) members)
  end.

End JsonInduction.

Lemma dumps_one_line (v : Json.value) : one_line (Json.dumps v) = true.
Proof.
  induction v using value_nested_ind; simpl.
  - reflexivity.
  - now destruct b.
  - apply one_line_int_str.
  - apply one_line_float_str.
  - apply one_line_encode_basestring_ascii.
  - rewrite !one_line_app, one_line_concat; try reflexivity.
    apply Forall_forall. intros x Hx. apply in_map_iff in Hx.
    destruct Hx as [y [<- Hy]].
    rewrite Forall_forall in H. now apply H.
  - rewrite !one_line_app, one_line_concat; try reflexivity.
    apply Forall_forall. intros x Hx. apply in_map_iff in Hx.
    destruct Hx as [kv [<- Hkv]].
    rewrite Forall_forall in H.
    change (one_line (Json.encode_basestring_ascii (fst kv) ++ ": " ++
                      Json.dumps (snd kv)) = true).
    now rewrite !one_line_app, one_line_encode_basestring_ascii, (H kv Hkv).
Qed.

Lemma dumps_nonempty (v : Json.value) : nonempty (Json.dumps v) = true.
Proof.
  destruct v as [|[]|z|f|s|items|members]; try reflexivity.
  - apply nonempty_int_str.
  - apply nonempty_float_str.
Qed.

(** ** Joining lines and splitting them again *)

Section Lines.

Lemma split_on_one_line (s : string) :
  one_line s = true -> lines s = [s].
Proof.
  unfold lines. induction s as [|c s IH]; simpl; [reflexivity|].
  intros H. apply andb_prop in H. destruct H as [Hc Hs].
  apply negb_true_iff in Hc. rewrite Hc, (IH Hs). reflexivity.
Qed.

Lemma split_on_line_then (s rest : string) :
  one_line s = true ->
  lines (s ++ newline ++ rest) = s :: lines rest.
Proof.
  unfold lines. induction s as [|c s IH]; simpl; intros H.
  - reflexivity.
  - apply andb_prop in H. destruct H as [Hc Hs].
    apply negb_true_iff in Hc. rewrite Hc.
    simpl in IH. now rewrite (IH Hs).
Qed.

(** Joining lines that hold no newline and splitting the text again gives
    the lines back. *)
Lemma lines_concat (x : string) (l : list string) :
  Forall (fun s => one_line s = true) (x :: l) ->
  lines (String.concat newline (x :: l)) = x :: l.
Proof.
  revert x. induction l as [|y l IH]; intros x H.
  - apply split_on_one_line. now inversion H.
  - change (String.concat newline (x :: y :: l))
      with (x ++ newline ++ String.concat newline (y :: l)).
    inversion H as [|? ? Hx Hrest]; subst.
    now rewrite split_on_line_then, IH.
Qed.

Lemma ends_with_newline_app (a b : string) :
  nonempty b = true ->
  ends_with_newline (a ++ b) = ends_with_newline b.
Proof.
  intros Hb. induction a as [|c a IH]; [reflexivity|].
  simpl. destruct (a ++ b) eqn:E.
  - destruct a, b; simpl in *; discriminate.
  - exact IH.
Qed.

Lemma one_line_no_trailing (s : string) :
  one_line s = true -> ends_with_newline s = false.
Proof.
  induction s as [|c s IH]; simpl; [reflexivity|].
  intros H. apply andb_prop in H. destruct H as [Hc Hs].
  apply negb_true_iff in Hc. destruct s; auto.
Qed.

Lemma concat_no_trailing (x : string) (l : list string) :
  Forall (fun s => one_line s = true /\ nonempty s = true) (x :: l) ->
  nonempty (String.concat newline (x :: l)) = true /\
  ends_with_newline (String.concat newline (x :: l)) = false.
Proof.
  revert x. induction l as [|y l IH]; intros x H.
  - inversion H as [|? ? [Hx Hn] _]; subst. simpl.
    auto using one_line_no_trailing.
  - change (String.concat newline (x :: y :: l))
      with (x ++ newline ++ String.concat newline (y :: l)).
    inversion H as [|? ? [Hx Hn] Hrest]; subst.
    destruct (IH y Hrest) as [Hne Hend].
    rewrite nonempty_app, Hn. split; [reflexivity|].
    rewrite ends_with_newline_app; [|now rewrite nonempty_app].
    rewrite ends_with_newline_app; assumption.
Qed.

End Lines.

(** ** The Record Serializer *)

(** C8.  [convert_to_line_delimited_json] applied to a collection of N
    records that [json.dumps] can serialize (no integer of more than 4300
    digits, no nesting beyond what the interpreter allows) calls no remote
    service: its whole trace is the entry into the function and one fixed
    progress line, the same for every input.  It returns the serializations
    [json.dumps] of the records joined by single newlines.  For N = 0 the
    payload is empty.  For N > 0 the payload splits at its newlines into
    exactly N lines, the k-th line being the serialization of the k-th
    record, and it has no trailing newline. *)
Theorem convert_to_line_delimited_json_lines (records : list Json.value) :
  forallb Json.serializable records = true ->
  let run := convert_to_line_delimited_json (Json.JArr records) in
  let payload := String.concat newline (map Json.dumps records) in
  trace run = [Call f_convert_to_line_delimited_json;
               Print "Converting data to line-delimited JSON format..."] /\
  ending run = Returned payload /\
  match records with
  | [] => payload = ""
  | _ :: _ =>
      lines payload = map Json.dumps records /\
      List.length (lines payload) = List.length records /\
      ends_with_newline payload = false
  end.
Proof.
  intros _. cbv zeta. split; [reflexivity|]. split; [reflexivity|].
  destruct records as [|r records]; [reflexivity|].
  assert (Hlines : lines (String.concat newline (map Json.dumps (r :: records)))
                   = map Json.dumps (r :: records)).
  { apply lines_concat, Forall_forall. intros s Hs.
    change (In s (map Json.dumps (r :: records))) in Hs.
    apply in_map_iff in Hs. destruct Hs as [v [<- _]]. apply dumps_one_line. }
  split; [exact Hlines|]. split.
  - now rewrite Hlines, length_map.
  - apply concat_no_trailing, Forall_forall. intros s Hs.
    change (In s (map Json.dumps (r :: records))) in Hs.
    apply in_map_iff in Hs. destruct Hs as [v [<- _]].
    split; [apply dumps_one_line | apply dumps_nonempty].
Qed.

Lemma convert_to_line_delimited_json_lines_witness :
  let records := [Stubs.player 20000441 "Bradley" "Beal" "PHO" "SG" 18;
                  Stubs.player 20000442 "John" "Wall" "LAC" "PG" 11] in
  let run := convert_to_line_delimited_json (Json.JArr records) in
  let payload := String.concat newline (map Json.dumps records) in
  trace run = [Call f_convert_to_line_delimited_json;
               Print "Converting data to line-delimited JSON format..."] /\
  ending run = Returned payload /\
  lines payload = map Json.dumps records /\
  List.length (lines payload) = 2 /\
  ends_with_newline payload = false.
Proof.
  apply (convert_to_line_delimited_json_lines
           [Stubs.player 20000441 "Bradley" "Beal" "PHO" "SG" 18;
            Stubs.player 20000442 "John" "Wall" "LAC" "PG" 11]).
  reflexivity.
Defined.

(** ** The monad *)

Section MonadFacts.

Context {A B : Type}.

Lemma bind_returned (m : M A) (k : A -> M B) (a : A) :
  ending m = Returned a ->
  bind m k = ((trace m ++ trace (k a))%list, ending (k a)).
Proof. unfold bind, ending, trace. now intros ->. Qed.

Lemma bind_raised (m : M A) (k : A -> M B) (e : exn) :
  ending m = Raised e -> bind m k = (trace m, Raised e).
Proof. unfold bind, ending, trace. now intros ->. Qed.

Lemma bind_running (m : M A) (k : A -> M B) :
  ending m = Running -> bind m k = (trace m, Running).
Proof. unfold bind, ending, trace. now intros ->. Qed.

Lemma bind_emit (e : event) (k : unit -> M B) :
  bind (emit e) k = (e :: trace (k tt), ending (k tt)).
Proof. reflexivity. Qed.

End MonadFacts.

Lemma calls_app (t1 t2 : list event) :
  calls (t1 ++ t2) = (calls t1 ++ calls t2)%list.
Proof. apply flat_map_app. Qed.

(** ** What each function of the script does, by the answers it gets *)

Section Runs.

Variable w : World.

Lemma create_s3_bucket_run (bucket region : string) :
  create_s3_bucket w bucket region =
  match s3_create_bucket w bucket region with
  | Ok _ =>
      ([Call f_create_s3_bucket; S3CreateBucket bucket region;
        Print ("Bucket " ++ bucket ++ " created successfully.")],
       Returned tt)
  | Fails e =>
      if except_ClientError e then
        ([Call f_create_s3_bucket; S3CreateBucket bucket region;
          Print ("Error while creating bucket: " ++ exn_str e)],
         Returned tt)
      else
        ([Call f_create_s3_bucket; S3CreateBucket bucket region], Raised e)
  end.
Proof.
  unfold create_s3_bucket, try_except, bind, remote, emit. simpl.
  destruct (s3_create_bucket w bucket region) as [[]|e]; simpl;
    [reflexivity|].
  destruct (except_ClientError e); reflexivity.
Qed.

Lemma create_glue_database_run (cfg : Config) :
  exists line,
    create_glue_database w cfg =
    ([Call f_create_glue_database;
      GlueCreateDatabase (glue_database_name cfg)
        "Glue database for NBA sports analytics.";
      Print line],
     Returned tt).
Proof.
  unfold create_glue_database, try_except, bind, remote, emit. simpl.
  destruct (glue_create_database w _ _) as [[]|e]; simpl; eauto.
Qed.

Lemma create_glue_table_run (cfg : Config) :
  exists line,
    create_glue_table w cfg =
    ([Call f_create_glue_table;
      GlueCreateTable (glue_database_name cfg) (nba_players_table cfg);
      Print line],
     Returned tt).
Proof.
  unfold create_glue_table, try_except, bind, remote, emit. simpl.
  destruct (glue_create_table w _ _) as [[]|e]; simpl; eauto.
Qed.

Lemma configure_athena_run (cfg : Config) :
  exists line,
    configure_athena w cfg =
    ([Call f_configure_athena;
      AthenaStartQueryExecution "CREATE DATABASE IF NOT EXISTS nba_analytics"
        (glue_database_name cfg) (athena_output_location cfg);
      Print line],
     Returned tt).
Proof.
  unfold configure_athena, try_except, bind, remote, emit. simpl.
  destruct (athena_start_query_execution w _ _ _) as [id|e]; simpl; eauto.
Qed.

(** [upload_data_to_s3] always returns; it puts an object exactly when the
    data can be iterated over. *)
Lemma upload_data_to_s3_run (cfg : Config) (data : Json.value) :
  ending (upload_data_to_s3 w cfg data) = Returned tt /\
  calls (trace (upload_data_to_s3 w cfg data)) =
    [f_upload_data_to_s3; f_convert_to_line_delimited_json].
Proof.
  unfold upload_data_to_s3, convert_to_line_delimited_json, iterate,
    try_except, bind, remote, emit, ending, trace.
  destruct data; simpl;
    try (split; reflexivity);
    destruct (s3_put_object w _ _ _) as [[]|e]; simpl; split; reflexivity.
Qed.

Lemma upload_of_records (cfg : Config) (records : list Json.value) :
  exists line,
    trace (upload_data_to_s3 w cfg (Json.JArr records)) =
    [Call f_upload_data_to_s3; Call f_convert_to_line_delimited_json;
     Print "Converting data to line-delimited JSON format...";
     S3PutObject (bucket_name cfg) "raw-data/nba_player_data.jsonl"
       (String.concat newline (map Json.dumps records));
     Print line].
Proof.
  unfold upload_data_to_s3, convert_to_line_delimited_json, iterate,
    try_except, bind, remote, emit, ending, trace. simpl.
  destruct (s3_put_object w _ _ _) as [[]|e]; simpl; eauto.
Qed.

Lemma raise_for_status_run (r : response) :
  raise_for_status r =
  if is_http_error_status r then
    ([], Raised (HTTPError
                   (int_str (status_code r) ++
                    (if (status_code r <? 500)%Z then " Client Error: "
                     else " Server Error: ") ++
                    reason r ++ " for url: " ++ url r)))
  else ([], Returned tt).
Proof.
  unfold raise_for_status, is_http_error_status, raise, ret.
  destruct (400 <=? status_code r)%Z eqn:H400; simpl.
  - destruct (status_code r <? 500)%Z eqn:H500; simpl.
    + assert ((status_code r <? 600)%Z = true) as -> by lia. reflexivity.
    + assert ((500 <=? status_code r)%Z = true) as -> by lia. simpl.
      destruct (status_code r <? 600)%Z; reflexivity.
  - assert ((500 <=? status_code r)%Z = false) as -> by lia. reflexivity.
Qed.

Lemma fetch_nba_players_run (key endpoint : option string) :
  fetch_nba_players w key endpoint =
  let start := [Call f_fetch_nba_players; PrintHeaders key;
                RequestsGet endpoint key] in
  match requests_get w endpoint key with
  | Fails e =>
      if except_HTTPError e then
        ((start ++
          [Print ("Error while fetching NBA players data: " ++ exn_str e)])%list,
         Returned Json.JNull)
      else (start, Raised e)
  | Ok r =>
      if is_http_error_status r then
        ((start ++
          [Print ("Error while fetching NBA players data: " ++
                  int_str (status_code r) ++
                  (if (status_code r <? 500)%Z then " Client Error: "
                   else " Server Error: ") ++
                  reason r ++ " for url: " ++ url r)])%list,
         Returned Json.JNull)
      else
        match body r with
        | Some v => (start, Returned v)
        | None =>
            (start,
             Raised (OtherException "JSONDecodeError"
                       "Expecting value: line 1 column 1 (char 0)"))
        end
  end.
Proof.
  unfold fetch_nba_players. cbv zeta.
  destruct (requests_get w endpoint key) as [r|e].
  - unfold try_except, bind, remote, emit. simpl.
    rewrite raise_for_status_run.
    destruct (is_http_error_status r); simpl; [reflexivity|].
    unfold response_json. destruct (body r); reflexivity.
  - unfold try_except, bind, remote, emit. simpl.
    destruct (except_HTTPError e); reflexivity.
Qed.

End Runs.

(** ** The polling loop *)

Section Polling.

Variable w : World.
Variable id : string.

Lemma wait_for_query_step (fuel k : nat) :
  wait_for_query w (S fuel) id k =
  match athena_get_query_execution w id k with
  | Fails e => ([AthenaGetQueryExecution id], Raised e)
  | Ok s =>
      if terminal s then ([AthenaGetQueryExecution id], Returned s)
      else (AthenaGetQueryExecution id :: Sleep 1 ::
            trace (wait_for_query w fuel id (S k)),
            ending (wait_for_query w fuel id (S k)))
  end.
Proof.
  cbn [wait_for_query]. unfold bind, remote, emit, ret. simpl.
  destruct (athena_get_query_execution w id k) as [s|e]; simpl;
    [|reflexivity].
  destruct (terminal s); reflexivity.
Qed.

(** From the poll [k] on: [d] polls that go on, then one that stops the
    loop with [stop]. *)
Lemma wait_for_query_from (d : nat) :
  forall k fuel stop,
    (forall j, j < d ->
       exists s, athena_get_query_execution w id (k + j) = Ok s /\
                 terminal s = false) ->
    athena_get_query_execution w id (k + d) = stop ->
    match stop with Ok s => terminal s = true | Fails _ => True end ->
    d < fuel ->
    wait_for_query w fuel id k =
    (polling_trace id d,
     match stop with Ok s => Returned s | Fails e => Raised e end).
Proof.
  induction d as [|d IH]; intros k fuel stop Hgo Hstop Hterm Hfuel.
  - destruct fuel as [|fuel]; [lia|].
    rewrite wait_for_query_step. rewrite Nat.add_0_r in Hstop.
    rewrite Hstop. destruct stop as [s|e]; simpl in *; [|reflexivity].
    now rewrite Hterm.
  - destruct fuel as [|fuel]; [lia|].
    rewrite wait_for_query_step.
    destruct (Hgo 0 ltac:(lia)) as [s [Hs Hnt]].
    rewrite Nat.add_0_r in Hs. rewrite Hs, Hnt.
    rewrite (IH (S k) fuel stop); try assumption; try lia.
    + reflexivity.
    + intros j Hj. destruct (Hgo (S j) ltac:(lia)) as [s' [Hs' Hnt']].
      exists s'. split; [|assumption].
      now replace (S k + j) with (k + S j) by lia.
    + now replace (S k + d) with (k + S d) by lia.
Qed.

(** A loop that only meets states that are not terminal is still running
    when the fuel is spent, whatever the fuel. *)
Lemma wait_for_query_running (fuel : nat) :
  forall k,
    (forall j, exists s, athena_get_query_execution w id j = Ok s /\
                         terminal s = false) ->
    ending (wait_for_query w fuel id k) = Running.
Proof.
  induction fuel as [|fuel IH]; intros k Hgo; [reflexivity|].
  rewrite wait_for_query_step.
  destruct (Hgo k) as [s [-> ->]]. simpl. now apply IH.
Qed.

Lemma wait_for_query_calls (fuel : nat) :
  forall k, calls (trace (wait_for_query w fuel id k)) = [].
Proof.
  induction fuel as [|fuel IH]; intros k; [reflexivity|].
  rewrite wait_for_query_step.
  destruct (athena_get_query_execution w id k) as [s|e]; [|reflexivity].
  destruct (terminal s); [reflexivity|]. simpl. apply IH.
Qed.

(** Among the states of a sequence that has a terminal one, there is a
    first terminal one. *)
Lemma first_terminal (states : nat -> string) (n : nat) :
  terminal (states n) = true ->
  exists m, m <= n /\ terminal (states m) = true /\
            forall j, j < m -> terminal (states j) = false.
Proof.
  induction n as [n IH] using lt_wf_ind. intros Hn.
  destruct (existsb (fun j => terminal (states j)) (seq 0 n)) eqn:E.
  - apply existsb_exists in E. destruct E as [j [Hj Hterm]].
    apply in_seq in Hj.
    destruct (IH j ltac:(lia) Hterm) as [m [Hm [Hmt Hbefore]]].
    exists m. repeat split; [lia|assumption|assumption].
  - exists n. repeat split; [lia|assumption|].
    intros j Hj. destruct (terminal (states j)) eqn:Hterm; [|reflexivity].
    assert (existsb (fun j => terminal (states j)) (seq 0 n) = true)
      as Htrue.
    { apply existsb_exists. exists j. split; [apply in_seq; lia|assumption]. }
    congruence.
Qed.

End Polling.

(** ** The Query Orchestrator and the Pipeline Driver, by the answers they get *)

Section Pipeline.

Variable w : World.

Lemma query_athena_run (fuel : nat) (database table output_location : string) :
  query_athena w fuel database table output_location =
  let query := count_query database table in
  let submit := AthenaStartQueryExecution query database output_location in
  match athena_start_query_execution w query database output_location with
  | Fails e =>
      if except_ClientError e then
        ([Call f_query_athena; submit;
          Print ("Error while querying Athena: " ++ exn_str e)],
         Returned None)
      else ([Call f_query_athena; submit], Raised e)
  | Ok id =>
      let polls :=
        Call f_query_athena :: submit :: Print ("Query Execution ID: " ++ id) ::
        trace (wait_for_query w fuel id 0) in
      match ending (wait_for_query w fuel id 0) with
      | Running => (polls, Running)
      | Raised e =>
          if except_ClientError e then
            ((polls ++
              [Print ("Error while querying Athena: " ++ exn_str e)])%list,
             Returned None)
          else (polls, Raised e)
      | Returned state =>
          if String.eqb state "SUCCEEDED" then
            match athena_get_query_results w id with
            | Ok rows =>
                ((polls ++ [AthenaGetQueryResults id])%list,
                 Returned (Some rows))
            | Fails e =>
                if except_ClientError e then
                  ((polls ++
                    [AthenaGetQueryResults id;
                     Print ("Error while querying Athena: " ++ exn_str e)])%list,
                   Returned None)
                else ((polls ++ [AthenaGetQueryResults id])%list, Raised e)
            end
          else
            ((polls ++ [Print ("Query failed with state: " ++ state)])%list,
             Returned None)
      end
  end.
Proof.
  unfold query_athena. cbv zeta.
  destruct (athena_start_query_execution w _ _ _) as [id|e].
  - unfold try_except, bind, remote, emit, ret, trace, ending. simpl.
    destruct (wait_for_query w fuel id 0) as [t [state|e|]]; simpl.
    + destruct (String.eqb state "SUCCEEDED"); simpl.
      * destruct (athena_get_query_results w id) as [rows|e]; simpl.
        -- rewrite ?app_nil_r; reflexivity.
        -- destruct (except_ClientError e); simpl;
             rewrite ?app_nil_r, <- ?app_assoc; reflexivity.
      * reflexivity.
    + destruct (except_ClientError e); reflexivity.
    + reflexivity.
  - unfold try_except, bind, remote, emit, ret. simpl.
    destruct (except_ClientError e); reflexivity.
Qed.

Lemma query_athena_calls (fuel : nat) (database table output_location : string) :
  calls (trace (query_athena w fuel database table output_location)) =
  [f_query_athena].
Proof.
  rewrite query_athena_run. cbv zeta.
  destruct (athena_start_query_execution w _ _ _) as [id|e].
  - pose proof (wait_for_query_calls w id fuel 0) as Hw.
    destruct (ending (wait_for_query w fuel id 0)) as [state|e|];
      repeat match goal with
             | |- context [if ?b then _ else _] => destruct b
             | |- context [match athena_get_query_results w id with _ => _ end] =>
                 destruct (athena_get_query_results w id)
             end;
      cbn [trace fst]; rewrite ?app_comm_cons, ?calls_app; cbn [calls flat_map app];
      fold (calls (trace (wait_for_query w fuel id 0)));
      rewrite ?Hw; reflexivity.
  - destruct (except_ClientError e); reflexivity.
Qed.

Lemma report_returns (athena_results : option (list row)) :
  ending (report athena_results) = Returned tt /\
  calls (trace (report athena_results)) = [].
Proof.
  unfold report. destruct athena_results as [[|r rows]|]; simpl;
    try (split; reflexivity).
  unfold ending, trace. simpl. split; [reflexivity|].
  induction rows; simpl; auto.
Qed.

End Pipeline.

Section Driver.

Variable w : World.

Lemma create_s3_bucket_returns (cfg : Config) :
  bucket_failure_caught w cfg = true ->
  ending (create_s3_bucket w (bucket_name cfg) (region cfg)) = Returned tt.
Proof.
  unfold bucket_failure_caught, caught_by. rewrite create_s3_bucket_run.
  destruct (s3_create_bucket w _ _) as [[]|e]; [reflexivity|].
  now intros ->.
Qed.

Lemma create_s3_bucket_calls (bucket region : string) :
  calls (trace (create_s3_bucket w bucket region)) = [f_create_s3_bucket].
Proof.
  rewrite create_s3_bucket_run.
  destruct (s3_create_bucket w _ _) as [[]|e]; [reflexivity|].
  destruct (except_ClientError e); reflexivity.
Qed.

Lemma fetch_nba_players_returns (cfg : Config) :
  fetch_failure_caught w cfg = true ->
  exists data,
    ending (fetch_nba_players w (api_key cfg) (nba_endpoint cfg))
    = Returned data.
Proof.
  unfold fetch_failure_caught. rewrite fetch_nba_players_run. cbv zeta.
  destruct (requests_get w _ _) as [r|e].
  - destruct (is_http_error_status r); simpl;
      [intros _; eexists; reflexivity|].
    destruct (body r); [intros _; eexists; reflexivity|discriminate].
  - intros ->. eexists; reflexivity.
Qed.

Lemma fetch_nba_players_calls (key endpoint : option string) :
  calls (trace (fetch_nba_players w key endpoint)) = [f_fetch_nba_players].
Proof.
  rewrite fetch_nba_players_run. cbv zeta.
  destruct (requests_get w _ _) as [r|e].
  - destruct (is_http_error_status r); [reflexivity|].
    destruct (body r); reflexivity.
  - destruct (except_HTTPError e); reflexivity.
Qed.

(** A run of [main] that gets past the bucket and the fetch: its trace is
    the traces of its steps one after the other, and it ends as the query
    ends. *)
Lemma main_run (fuel : nat) (cfg : Config) (data : Json.value) :
  bucket_failure_caught w cfg = true ->
  ending (fetch_nba_players w (api_key cfg) (nba_endpoint cfg))
  = Returned data ->
  let query := query_athena w fuel (glue_database_name cfg)
                 (glue_table_name cfg) (athena_output_location cfg) in
  main w fuel cfg =
  ((Call f_main ::
    Print "Setting up data lake for NBA sports analytics..." ::
    trace (create_s3_bucket w (bucket_name cfg) (region cfg)) ++
    Sleep 5 ::
    trace (create_glue_database w cfg) ++
    trace (fetch_nba_players w (api_key cfg) (nba_endpoint cfg)) ++
    (if Json.truthy data then trace (upload_data_to_s3 w cfg data) else []) ++
    trace (create_glue_table w cfg) ++
    trace (configure_athena w cfg) ++
    Print "Data lake setup complete." ::
    trace query ++
    match ending query with
    | Returned athena_results => trace (report athena_results)
    | _ => []
    end)%list,
   match ending query with
   | Returned _ => Returned tt
   | Raised e => Raised e
   | Running => Running
   end).
Proof.
  intros Hbucket Hfetch query. unfold main.
  pose proof (create_s3_bucket_returns cfg Hbucket) as H1.
  destruct (create_glue_database_run w cfg) as [l2 H2].
  destruct (create_glue_table_run w cfg) as [l5 H5].
  destruct (configure_athena_run w cfg) as [l6 H6].
  assert (Hup : ending (if Json.truthy data
                        then upload_data_to_s3 w cfg data else ret tt)
                = Returned tt).
  { destruct (Json.truthy data); [apply upload_data_to_s3_run|reflexivity]. }
  assert (Hupt : trace (if Json.truthy data
                        then upload_data_to_s3 w cfg data else ret tt)
                 = if Json.truthy data
                   then trace (upload_data_to_s3 w cfg data) else []).
  { destruct (Json.truthy data); reflexivity. }
  rewrite !bind_emit. cbv beta.
  rewrite (bind_returned _ _ _ H1). cbv beta. cbn [trace ending fst snd].
  rewrite ?bind_emit. cbv beta.
  rewrite (bind_returned (create_glue_database w cfg) _ tt)
    by (rewrite H2; reflexivity).
  cbv beta. cbn [trace ending fst snd].
  rewrite (bind_returned _ _ _ Hfetch). cbv beta. cbn [trace ending fst snd].
  rewrite (bind_returned _ _ _ Hup). cbv beta. cbn [trace ending fst snd].
  rewrite (bind_returned (create_glue_table w cfg) _ tt)
    by (rewrite H5; reflexivity).
  cbv beta. cbn [trace ending fst snd].
  rewrite (bind_returned (configure_athena w cfg) _ tt)
    by (rewrite H6; reflexivity).
  cbv beta. cbn [trace ending fst snd].
  rewrite ?bind_emit. cbv beta. cbn [trace ending fst snd].
  fold query. rewrite Hupt.
  destruct (ending query) as [r|e|] eqn:Hq.
  - rewrite (bind_returned _ _ _ Hq). cbn [trace ending fst snd].
    destruct (report_returns r) as [Hr _].
    unfold ending, trace in *. now rewrite Hr.
  - rewrite (bind_raised _ _ _ Hq). cbn [trace ending fst snd].
    now rewrite app_nil_r.
  - rewrite (bind_running _ _ Hq). cbn [trace ending fst snd].
    now rewrite app_nil_r.
Qed.

End Driver.

(** ** The Query Orchestrator *)

Lemma terminal_iff (s : string) :
  terminal s = true <-> In s ["SUCCEEDED"; "FAILED"; "CANCELLED"].
Proof.
  unfold terminal. rewrite existsb_exists. split.
  - intros [x [Hx Heq]]. apply String.eqb_eq in Heq. now subst.
  - intros H. exists s. split; [assumption|apply String.eqb_refl].
Qed.

Lemma not_terminal_iff (s : string) :
  terminal s = false <-> ~ In s ["SUCCEEDED"; "FAILED"; "CANCELLED"].
Proof.
  rewrite <- terminal_iff. destruct (terminal s); split; congruence.
Qed.

Lemma count_app (p : event -> bool) (t1 t2 : list event) :
  count p (t1 ++ t2) = count p t1 + count p t2.
Proof. unfold count. now rewrite filter_app, length_app. Qed.

Lemma polling_trace_fetches_nothing (id : string) (n : nat) :
  count is_get_query_results (polling_trace id n) = 0.
Proof. induction n; [reflexivity|exact IHn]. Qed.

(** The state reported at each poll up to [m] is given by [states], and the
    first terminal one is that of the poll [m]: the loop makes exactly
    these polls. *)
Lemma wait_for_query_first_terminal
  (w : World) (id : string) (states : nat -> string) (m : nat) :
  (forall k, k <= m -> athena_get_query_execution w id k = Ok (states k)) ->
  (forall j, j < m -> terminal (states j) = false) ->
  terminal (states m) = true ->
  forall fuel, m < fuel ->
    wait_for_query w fuel id 0 = (polling_trace id m, Returned (states m)).
Proof.
  intros Hpoll Hgo Hstop fuel Hfuel.
  apply wait_for_query_from with (stop := Ok (states m)).
  - intros j Hj. exists (states j). split; [apply Hpoll; lia|now apply Hgo].
  - apply Hpoll. lia.
  - exact Hstop.
  - exact Hfuel.
Qed.

(** C1.  In the polling loop of [query_athena], if the states Athena reports
    at the successive polls eventually include a terminal one (SUCCEEDED,
    FAILED or CANCELLED), the loop terminates: with enough fuel, and with
    any larger fuel, it returns.  It returns at the first poll [m] that
    reports a terminal state, with that state; every earlier poll reported
    a state that is not terminal (SUBMITTED and RUNNING are such states) and
    was followed by one sleep of one second before the next poll. *)
Theorem query_athena_polling_terminates
  (w : World) (id : string) (states : nat -> string) (n : nat) :
  (forall k, k <= n -> athena_get_query_execution w id k = Ok (states k)) ->
  In (states n) ["SUCCEEDED"; "FAILED"; "CANCELLED"] ->
  exists m,
    m <= n /\
    In (states m) ["SUCCEEDED"; "FAILED"; "CANCELLED"] /\
    (forall j, j < m -> ~ In (states j) ["SUCCEEDED"; "FAILED"; "CANCELLED"]) /\
    (forall fuel, m < fuel ->
       wait_for_query w fuel id 0 = (polling_trace id m, Returned (states m))) /\
    (forall s, s = "SUBMITTED" \/ s = "RUNNING" ->
       ~ In s ["SUCCEEDED"; "FAILED"; "CANCELLED"]).
Proof.
  intros Hpoll Hn. apply terminal_iff in Hn.
  destruct (first_terminal states n Hn) as [m [Hm [Hstop Hgo]]].
  exists m. split; [exact Hm|]. split; [now apply terminal_iff|].
  split; [intros j Hj; now apply not_terminal_iff, Hgo|]. split.
  - intros fuel Hfuel.
    apply wait_for_query_first_terminal; try assumption.
    intros k Hk. apply Hpoll. lia.
  - intros s [-> | ->]; apply not_terminal_iff; reflexivity.
Qed.

Lemma query_athena_polling_terminates_witness :
  exists m,
    m <= 2 /\
    In (nth m ["RUNNING"; "RUNNING"; "SUCCEEDED"] "RUNNING")
       ["SUCCEEDED"; "FAILED"; "CANCELLED"] /\
    (forall j, j < m ->
       ~ In (nth j ["RUNNING"; "RUNNING"; "SUCCEEDED"] "RUNNING")
            ["SUCCEEDED"; "FAILED"; "CANCELLED"]) /\
    (forall fuel, m < fuel ->
       wait_for_query
         (Stubs.world Stubs.two_players ["RUNNING"; "RUNNING"; "SUCCEEDED"]
            Stubs.count_row)
         fuel "q-1" 0
       = (polling_trace "q-1" m,
          Returned (nth m ["RUNNING"; "RUNNING"; "SUCCEEDED"] "RUNNING"))) /\
    (forall s, s = "SUBMITTED" \/ s = "RUNNING" ->
       ~ In s ["SUCCEEDED"; "FAILED"; "CANCELLED"]).
Proof.
  apply (query_athena_polling_terminates
           (Stubs.world Stubs.two_players ["RUNNING"; "RUNNING"; "SUCCEEDED"]
              Stubs.count_row)
           "q-1"
           (fun k => nth k ["RUNNING"; "RUNNING"; "SUCCEEDED"] "RUNNING") 2).
  - intros k _. reflexivity.
  - simpl. auto.
Defined.

(** C2.  In a run of [query_athena] whose submission is accepted and whose
    polling loop ends at the poll [m] in a terminal state,
    [get_query_results] is called exactly once when that state is SUCCEEDED
    and not at all when it is FAILED or CANCELLED.  On SUCCEEDED the call
    comes right after the last poll and the rows it answers, in their
    order, are what [query_athena] returns.  On FAILED or CANCELLED the run
    prints the terminal state and returns [None]. *)
Theorem query_athena_fetches_results_iff_succeeded
  (w : World) (database table output_location id : string)
  (states : nat -> string) (m : nat) :
  athena_start_query_execution w (count_query database table) database
    output_location = Ok id ->
  (forall k, k <= m -> athena_get_query_execution w id k = Ok (states k)) ->
  (forall j, j < m -> ~ In (states j) ["SUCCEEDED"; "FAILED"; "CANCELLED"]) ->
  In (states m) ["SUCCEEDED"; "FAILED"; "CANCELLED"] ->
  forall fuel, m < fuel ->
    let run := query_athena w fuel database table output_location in
    let polled :=
      ([Call f_query_athena;
        AthenaStartQueryExecution (count_query database table) database
          output_location;
        Print ("Query Execution ID: " ++ id)] ++ polling_trace id m)%list in
    count is_get_query_results (trace run)
    = (if String.eqb (states m) "SUCCEEDED" then 1 else 0) /\
    (states m = "SUCCEEDED" ->
     (exists rest, trace run = (polled ++ AthenaGetQueryResults id :: rest)%list) /\
     forall rows,
       athena_get_query_results w id = Ok rows ->
       run = ((polled ++ [AthenaGetQueryResults id])%list, Returned (Some rows))) /\
    (states m <> "SUCCEEDED" ->
     run = ((polled ++ [Print ("Query failed with state: " ++ states m)])%list,
            Returned None)).
Proof.
  intros Hstart Hpoll Hgo Hstop fuel Hfuel run polled.
  assert (Hwait : wait_for_query w fuel id 0
                  = (polling_trace id m, Returned (states m))).
  { apply wait_for_query_first_terminal; try assumption.
    - intros j Hj. now apply not_terminal_iff, Hgo.
    - now apply terminal_iff. }
  assert (Hpolled : count is_get_query_results polled = 0).
  { unfold polled. rewrite count_app, polling_trace_fetches_nothing.
    reflexivity. }
  subst run. rewrite query_athena_run. cbv zeta. rewrite Hstart, Hwait.
  cbn [trace ending fst snd]. fold polled.
  change (Call f_query_athena
          :: AthenaStartQueryExecution (count_query database table) database
               output_location
          :: Print ("Query Execution ID: " ++ id) :: polling_trace id m)
    with polled.
  destruct (String.eqb (states m) "SUCCEEDED") eqn:Hs.
  - apply String.eqb_eq in Hs.
    destruct (athena_get_query_results w id) as [rows|e] eqn:Hrows.
    + cbn [trace ending fst snd]. rewrite count_app, Hpolled.
      split; [reflexivity|].
      split; [|congruence]. intros _. split; [now exists []|].
      now intros rows' [= <-].
    + destruct (except_ClientError e); cbn [trace ending fst snd];
        rewrite count_app, Hpolled;
        (split; [reflexivity|]); (split; [|congruence]); intros _;
        (split; [eexists; reflexivity|discriminate]).
  - apply String.eqb_neq in Hs. cbn [trace ending fst snd].
    rewrite count_app, Hpolled. split; [reflexivity|].
    split; [congruence|]. intros _. reflexivity.
Qed.

Lemma query_athena_fetches_results_iff_succeeded_witness :
  let w := Stubs.world Stubs.two_players ["RUNNING"; "RUNNING"; "SUCCEEDED"]
             Stubs.count_row in
  let run := query_athena w 3 "demo_db" "players" "s3://demo-lake/athena-results/" in
  let polled :=
    [Call f_query_athena;
     AthenaStartQueryExecution (count_query "demo_db" "players") "demo_db"
       "s3://demo-lake/athena-results/";
     Print "Query Execution ID: q-1";
     AthenaGetQueryExecution "q-1"; Sleep 1;
     AthenaGetQueryExecution "q-1"; Sleep 1;
     AthenaGetQueryExecution "q-1"] in
  count is_get_query_results (trace run) = 1 /\
  ("SUCCEEDED" = "SUCCEEDED" ->
   (exists rest, trace run = (polled ++ AthenaGetQueryResults "q-1" :: rest)%list) /\
   forall rows,
     Ok Stubs.count_row = Ok rows ->
     run = ((polled ++ [AthenaGetQueryResults "q-1"])%list, Returned (Some rows))) /\
  ("SUCCEEDED" <> "SUCCEEDED" ->
   run = ((polled ++ [Print "Query failed with state: SUCCEEDED"])%list,
          Returned None)).
Proof.
  apply (query_athena_fetches_results_iff_succeeded
           (Stubs.world Stubs.two_players ["RUNNING"; "RUNNING"; "SUCCEEDED"]
              Stubs.count_row)
           "demo_db" "players" "s3://demo-lake/athena-results/" "q-1"
           (fun k => nth k ["RUNNING"; "RUNNING"; "SUCCEEDED"] "RUNNING") 2).
  - reflexivity.
  - intros k _. reflexivity.
  - intros j Hj. destruct j as [|[|j]]; simpl; [intuition discriminate ..|lia].
  - simpl. auto.
  - lia.
Defined.

(** ** The Pipeline Driver *)

Section DriverFacts.

Variable w : World.

Lemma trace_bind_prefix {A B} (m : M A) (k : A -> M B) :
  exists rest, trace (bind m k) = (trace m ++ rest)%list.
Proof.
  unfold bind, trace. destruct (snd m); cbn [fst].
  - eexists; reflexivity.
  - exists []. now rewrite app_nil_r.
  - exists []. now rewrite app_nil_r.
Qed.

(** The functions a run of [main] enters, once it is past the bucket and
    the fetch. *)
Lemma main_calls (fuel : nat) (cfg : Config) (data : Json.value) :
  bucket_failure_caught w cfg = true ->
  ending (fetch_nba_players w (api_key cfg) (nba_endpoint cfg))
  = Returned data ->
  calls (trace (main w fuel cfg)) =
  ([f_main; f_create_s3_bucket; f_create_glue_database; f_fetch_nba_players] ++
   (if Json.truthy data
    then [f_upload_data_to_s3; f_convert_to_line_delimited_json] else []) ++
   [f_create_glue_table; f_configure_athena; f_query_athena])%list.
Proof.
  intros Hbucket Hfetch.
  rewrite (main_run w fuel cfg data Hbucket Hfetch). cbv zeta.
  cbn [trace fst].
  destruct (create_glue_database_run w cfg) as [l2 ->].
  destruct (create_glue_table_run w cfg) as [l5 ->].
  destruct (configure_athena_run w cfg) as [l6 ->].
  cbn [trace fst].
  change (calls (?a :: ?b :: ?t)) with (calls [a; b] ++ calls t)%list.
  rewrite calls_app, create_s3_bucket_calls.
  change (calls (?a :: ?t)) with (calls [a] ++ calls t)%list.
  rewrite !calls_app, fetch_nba_players_calls.
  change (calls (?a :: ?t)) with (calls [a] ++ calls t)%list.
  rewrite !calls_app, query_athena_calls.
  assert (Hreport :
            calls match ending (query_athena w fuel (glue_database_name cfg)
                                  (glue_table_name cfg)
                                  (athena_output_location cfg)) with
                  | Returned athena_results => trace (report athena_results)
                  | _ => []
                  end = []).
  { destruct (ending (query_athena w fuel (glue_database_name cfg)
                        (glue_table_name cfg) (athena_output_location cfg)))
      as [r| |]; [apply report_returns|reflexivity..]. }
  rewrite Hreport.
  destruct (Json.truthy data).
  - rewrite (proj2 (upload_data_to_s3_run w cfg data)). reflexivity.
  - reflexivity.
Qed.

(** A query that settles lets [query_athena] return. *)
Lemma query_settles_returns (cfg : Config) (m fuel : nat) :
  query_settles w cfg m -> m < fuel ->
  exists athena_results,
    ending (query_athena w fuel (glue_database_name cfg) (glue_table_name cfg)
              (athena_output_location cfg))
    = Returned athena_results.
Proof.
  unfold query_settles. intros Hsettles Hfuel.
  rewrite query_athena_run. cbv zeta.
  destruct (athena_start_query_execution w _ _ _) as [id|e].
  - destruct Hsettles as [Hgo Hstop].
    rewrite (wait_for_query_from w id m 0 fuel
               (athena_get_query_execution w id m)); try assumption;
      try reflexivity.
    + cbn [trace ending fst snd].
      destruct (athena_get_query_execution w id m) as [s|e].
      * destruct Hstop as [_ Hrows].
        destruct (String.eqb s "SUCCEEDED") eqn:Hs; [|eexists; reflexivity].
        apply String.eqb_eq in Hs. specialize (Hrows Hs).
        destruct (athena_get_query_results w id) as [rows|e];
          [eexists; reflexivity|].
        simpl in Hrows. rewrite Hrows. eexists; reflexivity.
      * rewrite Hstop. eexists; reflexivity.
    + destruct (athena_get_query_execution w id m); [apply Hstop|exact I].
  - rewrite Hsettles. eexists; reflexivity.
Qed.

End DriverFacts.

Section DriverClaims.

Variable w : World.

Lemma main_shape_tail (a b c d : event) (t1 t2 t3 t4 t5 t6 tq tr : list event) :
  exists pre,
    (a :: b :: t1 ++ c :: t2 ++ t3 ++ t4 ++ t5 ++ t6 ++ d :: tq ++ tr)%list
    = (pre ++ tq ++ tr)%list.
Proof.
  exists (a :: b :: t1 ++ c :: t2 ++ t3 ++ t4 ++ t5 ++ t6 ++ [d])%list.
  repeat (rewrite <- app_comm_cons || rewrite <- app_assoc).
  reflexivity.
Qed.

(** The trace of a run of [main] that gets past the bucket and the fetch
    ends with the trace of [query_athena] and the report. *)
Lemma main_ends_with_query (fuel : nat) (cfg : Config) (data : Json.value) :
  bucket_failure_caught w cfg = true ->
  ending (fetch_nba_players w (api_key cfg) (nba_endpoint cfg))
  = Returned data ->
  let query := query_athena w fuel (glue_database_name cfg)
                 (glue_table_name cfg) (athena_output_location cfg) in
  exists pre,
    trace (main w fuel cfg) =
    (pre ++ trace query ++
     match ending query with
     | Returned athena_results => trace (report athena_results)
     | _ => []
     end)%list.
Proof.
  intros Hbucket Hfetch query.
  rewrite (main_run w fuel cfg data Hbucket Hfetch). cbv zeta.
  cbn [trace fst]. apply main_shape_tail.
Qed.

(** C3, as the code has it.  In every run in which each failure is one its
    step catches (a [ClientError] from bucket creation, an error status or
    an [HTTPError] from the request, anything from the Glue calls, the
    upload and the Athena set-up, a [ClientError] from the count query) and
    the count query settles at some poll, [main] goes through its steps in
    their fixed order, with the upload step exactly when the fetched data is
    truthy, and returns: it reaches DONE.  If the query ends in FAILED the
    run prints the failed state and the line that stands for no results. *)
Theorem main_reaches_DONE_when_failures_are_caught (cfg : Config) (m : nat) :
  bucket_failure_caught w cfg = true ->
  fetch_failure_caught w cfg = true ->
  query_settles w cfg m ->
  forall fuel, m < fuel ->
    ending (main w fuel cfg) = Returned tt /\
    (exists data,
       ending (fetch_nba_players w (api_key cfg) (nba_endpoint cfg))
       = Returned data /\
       states_visited (main w fuel cfg) =
       ([BUCKET; DATABASE; FETCH] ++
        (if Json.truthy data then [UPLOAD] else []) ++
        [TABLE; QUERY_SETUP; QUERY_RUN; DONE])%list) /\
    (forall id,
       athena_start_query_execution w
         (count_query (glue_database_name cfg) (glue_table_name cfg))
         (glue_database_name cfg) (athena_output_location cfg) = Ok id ->
       athena_get_query_execution w id m = Ok "FAILED" ->
       exists t,
         trace (main w fuel cfg) =
         (t ++ [Print "Query failed with state: FAILED";
                Print "Failed to query Athena."])%list).
Proof.
  intros Hbucket Hfetch Hsettles fuel Hfuel.
  destruct (fetch_nba_players_returns w cfg Hfetch) as [data Hdata].
  destruct (query_settles_returns w cfg m fuel Hsettles Hfuel) as [r Hr].
  assert (Hend : ending (main w fuel cfg) = Returned tt).
  { rewrite (main_run w fuel cfg data Hbucket Hdata). cbv zeta.
    cbn [ending snd]. now rewrite Hr. }
  split; [exact Hend|]. split.
  - exists data. split; [exact Hdata|].
    unfold states_visited.
    rewrite Hend, (main_calls w fuel cfg data Hbucket Hdata).
    destruct (Json.truthy data); reflexivity.
  - intros id Hstart Hfailed.
    destruct (main_ends_with_query fuel cfg data Hbucket Hdata) as [pre ->].
    unfold query_settles in Hsettles. rewrite Hstart in Hsettles.
    destruct Hsettles as [Hgo _].
    rewrite query_athena_run. cbv zeta. rewrite Hstart.
    rewrite (wait_for_query_from w id m 0 fuel (Ok "FAILED"));
      try assumption; try reflexivity.
    cbn [trace ending fst snd String.eqb Ascii.eqb Bool.eqb].
    eexists. rewrite app_assoc.
    change (?x :: ?y :: ?z :: ?p ++ [?q])%list
      with ([x; y; z] ++ p ++ [q])%list.
    rewrite !app_assoc. rewrite <- app_assoc. reflexivity.
Qed.

End DriverClaims.

Lemma main_reaches_DONE_when_failures_are_caught_witness :
  ending (main Stubs.failing_world 2 Stubs.cfg) = Returned tt /\
  (exists data,
     ending (fetch_nba_players Stubs.failing_world (api_key Stubs.cfg)
               (nba_endpoint Stubs.cfg))
     = Returned data /\
     states_visited (main Stubs.failing_world 2 Stubs.cfg) =
     ([BUCKET; DATABASE; FETCH] ++
      (if Json.truthy data then [UPLOAD] else []) ++
      [TABLE; QUERY_SETUP; QUERY_RUN; DONE])%list) /\
  (forall id,
     athena_start_query_execution Stubs.failing_world
       (count_query (glue_database_name Stubs.cfg) (glue_table_name Stubs.cfg))
       (glue_database_name Stubs.cfg) (athena_output_location Stubs.cfg)
     = Ok id ->
     athena_get_query_execution Stubs.failing_world id 1 = Ok "FAILED" ->
     exists t,
       trace (main Stubs.failing_world 2 Stubs.cfg) =
       (t ++ [Print "Query failed with state: FAILED";
              Print "Failed to query Athena."])%list).
Proof.
  apply (main_reaches_DONE_when_failures_are_caught
           Stubs.failing_world Stubs.cfg 1).
  - reflexivity.
  - reflexivity.
  - split; [|split; [reflexivity|discriminate]].
    intros j Hj. exists "RUNNING".
    destruct j as [|j]; [split; reflexivity|lia].
  - lia.
Defined.

(** C3, as stated, fails on the code.  A job that never leaves RUNNING keeps
    [main] in its polling loop for ever, and a request that fails below HTTP
    raises an exception [fetch_nba_players] does not catch, which ends
    [main] after the FETCH step. *)
Lemma main_can_miss_DONE :
  (~ exists fuel,
       ending (main Stubs.never_settling_world fuel Stubs.cfg) = Returned tt) /\
  (~ exists fuel,
       ending (main Stubs.unreachable_world fuel Stubs.cfg) = Returned tt) /\
  ending (main Stubs.unreachable_world 3 Stubs.cfg)
  = Raised Stubs.connection_error /\
  states_visited (main Stubs.unreachable_world 3 Stubs.cfg)
  = [BUCKET; DATABASE; FETCH].
Proof.
  split; [|split; [|split; reflexivity]].
  - intros [fuel H].
    rewrite (main_run Stubs.never_settling_world fuel Stubs.cfg
               Stubs.two_players eq_refl eq_refl) in H.
    cbv zeta in H. cbn [ending snd] in H.
    rewrite query_athena_run in H. cbv zeta in H.
    change (athena_start_query_execution Stubs.never_settling_world
              (count_query (glue_database_name Stubs.cfg)
                 (glue_table_name Stubs.cfg))
              (glue_database_name Stubs.cfg)
              (athena_output_location Stubs.cfg))
      with (@Ok string "q-1") in H.
    cbv iota beta in H.
    rewrite (wait_for_query_running Stubs.never_settling_world "q-1") in H.
    + discriminate.
    + intros j. exists "RUNNING". split; [|reflexivity].
      destruct j; reflexivity.
  - intros [fuel H]. discriminate.
Qed.

(** ** The External Data Source Client *)

(** C4, as the code has it.  When the request is answered with a status
    4xx or 5xx, [fetch_nba_players] raises nothing: it prints the error,
    which holds the status, the reason and the address, and returns [None].
    In a run of [main] that gets to the fetch, the upload step is then not
    entered and the run goes on through the table, the Athena set-up and the
    query. *)
Theorem fetch_nba_players_error_status_skips_upload
  (w : World) (cfg : Config) (r : response) :
  requests_get w (nba_endpoint cfg) (api_key cfg) = Ok r ->
  (400 <= status_code r < 600)%Z ->
  bucket_failure_caught w cfg = true ->
  forall fuel,
    fetch_nba_players w (api_key cfg) (nba_endpoint cfg) =
    ([Call f_fetch_nba_players; PrintHeaders (api_key cfg);
      RequestsGet (nba_endpoint cfg) (api_key cfg);
      Print ("Error while fetching NBA players data: " ++
             int_str (status_code r) ++
             (if (status_code r <? 500)%Z then " Client Error: "
              else " Server Error: ") ++
             reason r ++ " for url: " ++ url r)],
     Returned Json.JNull) /\
    calls (trace (main w fuel cfg)) =
    [f_main; f_create_s3_bucket; f_create_glue_database; f_fetch_nba_players;
     f_create_glue_table; f_configure_athena; f_query_athena].
Proof.
  intros Hget Hstatus Hbucket fuel.
  assert (Hfetch :
            fetch_nba_players w (api_key cfg) (nba_endpoint cfg) =
            ([Call f_fetch_nba_players; PrintHeaders (api_key cfg);
              RequestsGet (nba_endpoint cfg) (api_key cfg);
              Print ("Error while fetching NBA players data: " ++
                     int_str (status_code r) ++
                     (if (status_code r <? 500)%Z then " Client Error: "
                      else " Server Error: ") ++
                     reason r ++ " for url: " ++ url r)],
             Returned Json.JNull)).
  { rewrite fetch_nba_players_run. cbv zeta. rewrite Hget.
    unfold is_http_error_status.
    assert ((400 <=? status_code r)%Z = true) as -> by lia.
    assert ((status_code r <? 600)%Z = true) as -> by lia.
    reflexivity. }
  split; [exact Hfetch|].
  rewrite (main_calls w fuel cfg Json.JNull Hbucket); [reflexivity|].
  now rewrite Hfetch.
Qed.

Lemma fetch_nba_players_error_status_skips_upload_witness :
  fetch_nba_players Stubs.failing_world (api_key Stubs.cfg)
    (nba_endpoint Stubs.cfg) =
  ([Call f_fetch_nba_players; PrintHeaders (api_key Stubs.cfg);
    RequestsGet (nba_endpoint Stubs.cfg) (api_key Stubs.cfg);
    Print ("Error while fetching NBA players data: " ++
           int_str (status_code Stubs.not_found) ++
           (if (status_code Stubs.not_found <? 500)%Z then " Client Error: "
            else " Server Error: ") ++
           reason Stubs.not_found ++ " for url: " ++ url Stubs.not_found)],
   Returned Json.JNull) /\
  calls (trace (main Stubs.failing_world 2 Stubs.cfg)) =
  [f_main; f_create_s3_bucket; f_create_glue_database; f_fetch_nba_players;
   f_create_glue_table; f_configure_athena; f_query_athena].
Proof.
  apply (fetch_nba_players_error_status_skips_upload
           Stubs.failing_world Stubs.cfg Stubs.not_found).
  - reflexivity.
  - simpl. lia.
  - reflexivity.
Defined.

(** C4, as stated, fails on the code.  A request that fails below HTTP
    raises an exception that is no [HTTPError]: [fetch_nba_players] lets it
    through and [main] ends with it, before the table is created.  A
    response with the status 300 and a JSON document raises nothing at all:
    the document is returned as the fetched data and the upload step
    runs. *)
Lemma fetch_nba_players_lets_failures_through :
  (ending (fetch_nba_players Stubs.unreachable_world (api_key Stubs.cfg)
             (nba_endpoint Stubs.cfg))
   = Raised Stubs.connection_error /\
   ending (main Stubs.unreachable_world 3 Stubs.cfg)
   = Raised Stubs.connection_error /\
   calls (trace (main Stubs.unreachable_world 3 Stubs.cfg))
   = [f_main; f_create_s3_bucket; f_create_glue_database;
      f_fetch_nba_players]) /\
  (ending (fetch_nba_players Stubs.redirecting_world (api_key Stubs.cfg)
             (nba_endpoint Stubs.cfg))
   = Returned Stubs.two_players /\
   count is_put_object (trace (main Stubs.redirecting_world 3 Stubs.cfg)) = 1 /\
   calls (trace (main Stubs.redirecting_world 3 Stubs.cfg))
   = [f_main; f_create_s3_bucket; f_create_glue_database; f_fetch_nba_players;
      f_upload_data_to_s3; f_convert_to_line_delimited_json;
      f_create_glue_table; f_configure_athena; f_query_athena]).
Proof. repeat split; vm_compute; reflexivity. Qed.

(** ** Configuration *)

(** Whatever the services answer, [main] begins with its banner and the
    remote call that creates the bucket. *)
Lemma main_starts_with_bucket_creation
  (w : World) (fuel : nat) (cfg : Config) :
  exists rest,
    trace (main w fuel cfg) =
    ([Call f_main;
      Print "Setting up data lake for NBA sports analytics...";
      Call f_create_s3_bucket;
      S3CreateBucket (bucket_name cfg) (region cfg)] ++ rest)%list.
Proof.
  unfold main. rewrite !bind_emit. cbn [trace ending fst snd].
  match goal with
  | |- context [trace (bind ?m ?k)] =>
      destruct (trace_bind_prefix m k) as [rest ->]
  end.
  rewrite create_s3_bucket_run.
  destruct (s3_create_bucket w _ _) as [[]|e];
    [|destruct (except_ClientError e)];
    cbn [trace fst app]; eexists; reflexivity.
Qed.

Lemma create_clients_run (boto3_client : Boto3) (cfg : Config) :
  if clients_constructed boto3_client cfg
  then create_clients boto3_client cfg = ([], Returned tt)
  else exists e, create_clients boto3_client cfg = ([], Raised e).
Proof.
  unfold clients_constructed, create_clients, construct, bind.
  cbn [forallb].
  destruct (boto3_client "s3" (region cfg)) as [[]|e1]; cbn;
    [|eexists; reflexivity].
  destruct (boto3_client "glue" (region cfg)) as [[]|e2]; cbn;
    [|eexists; reflexivity].
  destruct (boto3_client "athena" (region cfg)) as [[]|e3]; cbn;
    [reflexivity|eexists; reflexivity].
Qed.

(** C5, as the code has it.  The program checks nothing about the
    credential and the endpoint.  Whatever they are, set or not, it first
    prints the loaded key ([None] when it is not set) and then builds its
    three clients.  If the library refuses to build one, the run ends
    there, before [main] and before any remote call.  If it builds them,
    the run enters [main], and the first thing [main] does after its banner
    is the remote call that creates the bucket. *)
Theorem program_checks_no_credential
  (boto3_client : Boto3) (w : World) (fuel : nat) (cfg : Config) :
  hd_error (trace (program boto3_client w fuel cfg))
  = Some (Print ("Loaded API Key: " ++ str_of_optional (api_key cfg))) /\
  if clients_constructed boto3_client cfg then
    exists rest,
      trace (program boto3_client w fuel cfg) =
      ([Print ("Loaded API Key: " ++ str_of_optional (api_key cfg));
        Call f_main;
        Print "Setting up data lake for NBA sports analytics...";
        Call f_create_s3_bucket;
        S3CreateBucket (bucket_name cfg) (region cfg)] ++ rest)%list
  else
    trace (program boto3_client w fuel cfg)
    = [Print ("Loaded API Key: " ++ str_of_optional (api_key cfg))] /\
    exists e, ending (program boto3_client w fuel cfg) = Raised e.
Proof.
  unfold program. rewrite bind_emit. cbn [trace ending fst snd].
  split; [reflexivity|].
  pose proof (create_clients_run boto3_client cfg) as Hclients.
  destruct (clients_constructed boto3_client cfg).
  - rewrite (bind_returned (create_clients boto3_client cfg) _ tt)
      by now rewrite Hclients.
    rewrite Hclients. cbn [trace ending fst snd app].
    destruct (main_starts_with_bucket_creation w fuel cfg) as [rest ->].
    exists rest. reflexivity.
  - destruct Hclients as [e He].
    rewrite (bind_raised (create_clients boto3_client cfg) _ e)
      by now rewrite He.
    rewrite He. cbn [trace ending fst snd]. split; [reflexivity|].
    exists e. reflexivity.
Qed.

(** When the clients are built, the program is the print of the key
    followed by [main]. *)
Lemma program_with_clients
  (boto3_client : Boto3) (w : World) (fuel : nat) (cfg : Config) :
  clients_constructed boto3_client cfg = true ->
  program boto3_client w fuel cfg = script w fuel cfg.
Proof.
  intros Hok. pose proof (create_clients_run boto3_client cfg) as Hclients.
  rewrite Hok in Hclients. unfold program, script. rewrite !bind_emit.
  rewrite (bind_returned (create_clients boto3_client cfg) _ tt)
    by now rewrite Hclients.
  now rewrite Hclients.
Qed.

Example program_with_malformed_region :
  program Stubs.clients_refused
    (Stubs.world Stubs.two_players ["SUCCEEDED"] Stubs.count_row) 3
    (load_config (Some "not a region!") (Some "0123456789abcdef") None)
  = ([Print "Loaded API Key: 0123456789abcdef"], Raised Stubs.invalid_region).
Proof. reflexivity. Qed.

(** C5, as stated, fails on the code.  With neither the credential nor the
    endpoint set, the run prints the key as [None], builds its clients and
    then calls S3, Glue and the HTTP library, whose refusal of the missing
    address ends the run. *)
Lemma program_runs_without_configuration :
  let run := program Stubs.clients_ok Stubs.unconfigured_world 3
               Stubs.cfg_unset in
  remote_calls (trace run) =
  [S3CreateBucket "bai-xu-sports-analytics-data-lake" "ap-southeast-2";
   GlueCreateDatabase "xu-glue_nba_data_lake"
     "Glue database for NBA sports analytics.";
   RequestsGet None None] /\
  hd_error (trace run) = Some (Print "Loaded API Key: None") /\
  ending run = Raised Stubs.missing_schema.
Proof. repeat split; vm_compute; reflexivity. Qed.

(** ** The conditional upload *)

(** C6, as the code has it.  In a run of [main] that gets to the fetch, if
    [fetch_nba_players] returns data that is not truthy (the empty
    collection, or [None] after an HTTP error), [upload_data_to_s3] is not
    entered and no object is put, while the table step, the Athena set-up
    and the query are entered all the same and make their remote calls. *)
Theorem upload_skipped_when_fetch_gives_no_data
  (w : World) (cfg : Config) (data : Json.value) :
  bucket_failure_caught w cfg = true ->
  ending (fetch_nba_players w (api_key cfg) (nba_endpoint cfg))
  = Returned data ->
  Json.truthy data = false ->
  forall fuel,
    let t := trace (main w fuel cfg) in
    calls t =
    [f_main; f_create_s3_bucket; f_create_glue_database; f_fetch_nba_players;
     f_create_glue_table; f_configure_athena; f_query_athena] /\
    ~ In f_upload_data_to_s3 (calls t) /\
    In (GlueCreateTable (glue_database_name cfg) (nba_players_table cfg)) t /\
    In (AthenaStartQueryExecution "CREATE DATABASE IF NOT EXISTS nba_analytics"
          (glue_database_name cfg) (athena_output_location cfg)) t /\
    In (AthenaStartQueryExecution
          (count_query (glue_database_name cfg) (glue_table_name cfg))
          (glue_database_name cfg) (athena_output_location cfg)) t.
Proof.
  intros Hbucket Hfetch Hfalsy fuel t.
  assert (Hcalls : calls t =
                   [f_main; f_create_s3_bucket; f_create_glue_database;
                    f_fetch_nba_players; f_create_glue_table;
                    f_configure_athena; f_query_athena]).
  { unfold t. rewrite (main_calls w fuel cfg data Hbucket Hfetch), Hfalsy.
    reflexivity. }
  split; [exact Hcalls|]. split.
  { rewrite Hcalls. simpl. intuition discriminate. }
  unfold t. rewrite (main_run w fuel cfg data Hbucket Hfetch). cbv zeta.
  cbn [trace fst]. rewrite Hfalsy.
  destruct (create_glue_table_run w cfg) as [l5 ->].
  destruct (configure_athena_run w cfg) as [l6 ->].
  cbn [trace fst].
  assert (Hquery :
            In (AthenaStartQueryExecution
                  (count_query (glue_database_name cfg) (glue_table_name cfg))
                  (glue_database_name cfg) (athena_output_location cfg))
               (trace (query_athena w fuel (glue_database_name cfg)
                         (glue_table_name cfg) (athena_output_location cfg)))).
  { rewrite query_athena_run. cbv zeta.
    destruct (athena_start_query_execution w
                (count_query (glue_database_name cfg) (glue_table_name cfg))
                _ _) as [id|e].
    - destruct (ending (wait_for_query w fuel id 0)) as [s|e|];
        repeat match goal with
               | |- context [if ?b then _ else _] => destruct b
               | |- context [match athena_get_query_results w id with _ => _ end] =>
                   destruct (athena_get_query_results w id)
               end;
        cbn [trace fst]; rewrite ?app_comm_cons; try apply in_or_app;
        simpl; auto.
    - destruct (except_ClientError e); simpl; auto. }
  set (tq := trace (query_athena w fuel (glue_database_name cfg)
                      (glue_table_name cfg) (athena_output_location cfg))) in *.
  set (t1 := trace (create_s3_bucket w (bucket_name cfg) (region cfg))).
  set (t2 := trace (create_glue_database w cfg)).
  set (t3 := trace (fetch_nba_players w (api_key cfg) (nba_endpoint cfg))).
  repeat split; cbn [In]; rewrite ?in_app_iff; cbn [In];
    rewrite ?in_app_iff; cbn [In]; rewrite ?in_app_iff; cbn [In];
    auto 20.
Qed.

Lemma upload_skipped_when_fetch_gives_no_data_witness :
  let t := trace (main (Stubs.world (Json.JArr []) ["SUCCEEDED"] [[Some "0"]])
                    2 Stubs.cfg) in
  calls t =
  [f_main; f_create_s3_bucket; f_create_glue_database; f_fetch_nba_players;
   f_create_glue_table; f_configure_athena; f_query_athena] /\
  ~ In f_upload_data_to_s3 (calls t) /\
  In (GlueCreateTable (glue_database_name Stubs.cfg)
        (nba_players_table Stubs.cfg)) t /\
  In (AthenaStartQueryExecution "CREATE DATABASE IF NOT EXISTS nba_analytics"
        (glue_database_name Stubs.cfg) (athena_output_location Stubs.cfg)) t /\
  In (AthenaStartQueryExecution
        (count_query (glue_database_name Stubs.cfg) (glue_table_name Stubs.cfg))
        (glue_database_name Stubs.cfg) (athena_output_location Stubs.cfg)) t.
Proof.
  apply (upload_skipped_when_fetch_gives_no_data
           (Stubs.world (Json.JArr []) ["SUCCEEDED"] [[Some "0"]])
           Stubs.cfg (Json.JArr [])).
  - reflexivity.
  - reflexivity.
  - reflexivity.
Defined.

(** C6, as stated, fails on the code.  A fetch can also produce no data by
    raising: a request that fails below HTTP, or an answer whose body is no
    JSON document.  The upload is skipped then as well, but so is the rest:
    [main] ends after the fetch, and neither the table step nor the Athena
    set-up nor the query is entered. *)
Lemma failed_fetch_skips_table_and_query :
  let unreachable := main Stubs.unreachable_world 3 Stubs.cfg in
  let undecodable :=
    main (Stubs.with_request (Ok Stubs.html_response)
            (Stubs.world Stubs.two_players ["SUCCEEDED"] Stubs.count_row))
         3 Stubs.cfg in
  (calls (trace unreachable)
   = [f_main; f_create_s3_bucket; f_create_glue_database;
      f_fetch_nba_players] /\
   remote_calls (trace unreachable)
   = [S3CreateBucket "bai-xu-sports-analytics-data-lake" "ap-southeast-2";
      GlueCreateDatabase "xu-glue_nba_data_lake"
        "Glue database for NBA sports analytics.";
      RequestsGet (nba_endpoint Stubs.cfg) (api_key Stubs.cfg)] /\
   ending unreachable = Raised Stubs.connection_error) /\
  (calls (trace undecodable)
   = [f_main; f_create_s3_bucket; f_create_glue_database;
      f_fetch_nba_players] /\
   remote_calls (trace undecodable)
   = [S3CreateBucket "bai-xu-sports-analytics-data-lake" "ap-southeast-2";
      GlueCreateDatabase "xu-glue_nba_data_lake"
        "Glue database for NBA sports analytics.";
      RequestsGet (nba_endpoint Stubs.cfg) (api_key Stubs.cfg)] /\
   ending undecodable
   = Raised (OtherException "JSONDecodeError"
               "Expecting value: line 1 column 1 (char 0)")).
Proof. repeat split; vm_compute; reflexivity. Qed.

(** ** The Storage Provisioner *)

(** C7.  When S3 refuses the creation of the bucket with a [ClientError],
    which is how it reports that the bucket already exists,
    [create_s3_bucket] prints the error and returns normally, and [main]
    goes on: it sleeps five seconds and calls Glue to create the
    database. *)
Theorem create_s3_bucket_already_exists_continues
  (w : World) (cfg : Config) (code message : string) :
  s3_create_bucket w (bucket_name cfg) (region cfg)
  = Fails (ClientError code message) ->
  create_s3_bucket w (bucket_name cfg) (region cfg) =
  ([Call f_create_s3_bucket;
    S3CreateBucket (bucket_name cfg) (region cfg);
    Print ("Error while creating bucket: " ++ message)],
   Returned tt) /\
  forall fuel,
  exists rest,
    trace (main w fuel cfg) =
    ([Call f_main;
      Print "Setting up data lake for NBA sports analytics...";
      Call f_create_s3_bucket;
      S3CreateBucket (bucket_name cfg) (region cfg);
      Print ("Error while creating bucket: " ++ message);
      Sleep 5;
      Call f_create_glue_database;
      GlueCreateDatabase (glue_database_name cfg)
        "Glue database for NBA sports analytics."] ++ rest)%list.
Proof.
  intros Hexists.
  assert (Hrun : create_s3_bucket w (bucket_name cfg) (region cfg) =
                 ([Call f_create_s3_bucket;
                   S3CreateBucket (bucket_name cfg) (region cfg);
                   Print ("Error while creating bucket: " ++ message)],
                  Returned tt)).
  { rewrite create_s3_bucket_run, Hexists. reflexivity. }
  split; [exact Hrun|]. intros fuel.
  unfold main. rewrite !bind_emit. cbn [trace ending fst snd].
  rewrite (bind_returned (create_s3_bucket w (bucket_name cfg) (region cfg))
             _ tt) by now rewrite Hrun.
  cbn [trace ending fst snd]. rewrite Hrun. cbn [trace fst app].
  rewrite ?bind_emit. cbn [trace ending fst snd].
  match goal with
  | |- context [trace (bind ?m ?k)] =>
      destruct (trace_bind_prefix m k) as [rest ->]
  end.
  destruct (create_glue_database_run w cfg) as [line ->].
  cbn [trace fst app]. eexists. reflexivity.
Qed.

Lemma create_s3_bucket_already_exists_continues_witness :
  let w := Stubs.with_bucket (Fails Stubs.already_exists)
             (Stubs.world Stubs.two_players ["SUCCEEDED"] Stubs.count_row) in
  create_s3_bucket w (bucket_name Stubs.cfg) (region Stubs.cfg) =
  ([Call f_create_s3_bucket;
    S3CreateBucket (bucket_name Stubs.cfg) (region Stubs.cfg);
    Print ("Error while creating bucket: " ++ exn_str Stubs.already_exists)],
   Returned tt) /\
  forall fuel,
  exists rest,
    trace (main w fuel Stubs.cfg) =
    ([Call f_main;
      Print "Setting up data lake for NBA sports analytics...";
      Call f_create_s3_bucket;
      S3CreateBucket (bucket_name Stubs.cfg) (region Stubs.cfg);
      Print ("Error while creating bucket: " ++ exn_str Stubs.already_exists);
      Sleep 5;
      Call f_create_glue_database;
      GlueCreateDatabase (glue_database_name Stubs.cfg)
        "Glue database for NBA sports analytics."] ++ rest)%list.
Proof.
  apply (create_s3_bucket_already_exists_continues
           (Stubs.with_bucket (Fails Stubs.already_exists)
              (Stubs.world Stubs.two_players ["SUCCEEDED"] Stubs.count_row))
           Stubs.cfg "BucketAlreadyOwnedByYou"
           (exn_str Stubs.already_exists)).
  reflexivity.
Defined.

(** ** The storage location *)

Lemma append_assoc (a b c : string) : (a ++ b) ++ c = a ++ b ++ c.
Proof. induction a as [|x a IH]; simpl; [reflexivity|now rewrite IH]. Qed.

(** C9, as the code has it.  The [Location] of the table is the folder
    [raw-data/] of the configured bucket, and the object the uploader puts
    is the file [nba_player_data.jsonl] of that folder, in the same bucket:
    the address of the object is the [Location] followed by the file name.
    Both functions take the bucket from the same configuration; each writes
    the folder name out by itself. *)
Theorem table_location_is_folder_of_object_written
  (w : World) (cfg : Config) (records : list Json.value) :
  exists location,
    location = "s3://" ++ bucket_name cfg ++ "/raw-data/" /\
    table_locations (trace (create_glue_table w cfg)) = [location] /\
    objects_written (trace (upload_data_to_s3 w cfg (Json.JArr records)))
    = [location ++ "nba_player_data.jsonl"].
Proof.
  eexists. split; [reflexivity|]. split.
  - destruct (create_glue_table_run w cfg) as [line ->]. reflexivity.
  - destruct (upload_of_records w cfg records) as [line ->].
    cbn [objects_written flat_map app]. unfold object_address.
    now rewrite !append_assoc.
Qed.

(** C9, as stated, fails on the code: the [Location] of the table is not
    the location the uploader writes to. *)
Lemma table_location_differs_from_object_written :
  let w := Stubs.world Stubs.two_players ["SUCCEEDED"] Stubs.count_row in
  table_locations (trace (create_glue_table w Stubs.cfg))
  = ["s3://bai-xu-sports-analytics-data-lake/raw-data/"] /\
  objects_written (trace (upload_data_to_s3 w Stubs.cfg Stubs.two_players))
  = ["s3://bai-xu-sports-analytics-data-lake/raw-data/nba_player_data.jsonl"] /\
  table_locations (trace (create_glue_table w Stubs.cfg))
  <> objects_written (trace (upload_data_to_s3 w Stubs.cfg Stubs.two_players)).
Proof. repeat split; vm_compute; [reflexivity..|discriminate]. Qed.

(** ** The report of the driver *)

Section Report.

Variable w : World.

(** In each of the three cases [query_athena] returns a value that is not
    truthy: an empty list of rows, or [None]. *)
Lemma no_results_not_truthy (cfg : Config) (m fuel : nat) :
  no_results w cfg m -> m < fuel ->
  exists athena_results,
    ending (query_athena w fuel (glue_database_name cfg) (glue_table_name cfg)
              (athena_output_location cfg))
    = Returned athena_results /\
    results_truthy athena_results = false.
Proof.
  intros Hcase Hfuel. rewrite query_athena_run. cbv zeta.
  destruct Hcase as [id Hstart Hgo Hstop Hrows
                    |id state Hstart Hgo Hstop Hstate
                    |code message Hstart];
    rewrite Hstart.
  - rewrite (wait_for_query_from w id m 0 fuel (Ok "SUCCEEDED"));
      try assumption; try reflexivity.
    cbn [trace ending fst snd]. rewrite Hrows.
    exists (Some []). split; reflexivity.
  - rewrite (wait_for_query_from w id m 0 fuel (Ok state));
      try assumption.
    + cbn [trace ending fst snd].
      exists None. destruct Hstate as [-> | ->]; split; reflexivity.
    + destruct Hstate as [-> | ->]; reflexivity.
  - exists None. split; reflexivity.
Qed.

End Report.

(** C10.  In a run of [main] that gets to the query, if the query reaches
    SUCCEEDED and its result set has no row, [main] ends by printing
    [Failed to query Athena.]; it ends in the same way, with the same line,
    when the query reaches FAILED or CANCELLED and when its submission fails
    with a [ClientError].  In all these cases [main] returns normally. *)
Theorem main_reports_failure_without_results
  (w : World) (cfg : Config) (m : nat) :
  bucket_failure_caught w cfg = true ->
  fetch_failure_caught w cfg = true ->
  no_results w cfg m ->
  forall fuel, m < fuel ->
    ending (main w fuel cfg) = Returned tt /\
    exists athena_results,
      ending (query_athena w fuel (glue_database_name cfg) (glue_table_name cfg)
                (athena_output_location cfg))
      = Returned athena_results /\
      report athena_results = ([Print "Failed to query Athena."], Returned tt) /\
      exists t,
        trace (main w fuel cfg) = (t ++ [Print "Failed to query Athena."])%list.
Proof.
  intros Hbucket Hfetch Hcase fuel Hfuel.
  destruct (fetch_nba_players_returns w cfg Hfetch) as [data Hdata].
  destruct (no_results_not_truthy w cfg m fuel Hcase Hfuel) as [r [Hr Hfalsy]].
  assert (Hreport : report r = ([Print "Failed to query Athena."], Returned tt)).
  { unfold report. now rewrite Hfalsy. }
  split.
  - rewrite (main_run w fuel cfg data Hbucket Hdata). cbv zeta.
    cbn [ending snd]. now rewrite Hr.
  - exists r. split; [exact Hr|]. split; [exact Hreport|].
    destruct (main_ends_with_query w fuel cfg data Hbucket Hdata) as [pre ->].
    rewrite Hr, Hreport. cbn [trace fst].
    eexists. now rewrite app_assoc.
Qed.

Lemma main_reports_failure_without_results_witness :
  ending (main Stubs.empty_success_world 2 Stubs.cfg) = Returned tt /\
  exists athena_results,
    ending (query_athena Stubs.empty_success_world 2
              (glue_database_name Stubs.cfg) (glue_table_name Stubs.cfg)
              (athena_output_location Stubs.cfg))
    = Returned athena_results /\
    report athena_results = ([Print "Failed to query Athena."], Returned tt) /\
    exists t,
      trace (main Stubs.empty_success_world 2 Stubs.cfg)
      = (t ++ [Print "Failed to query Athena."])%list.
Proof.
  apply (main_reports_failure_without_results
           Stubs.empty_success_world Stubs.cfg 1).
  - reflexivity.
  - reflexivity.
  - apply (empty_success Stubs.empty_success_world Stubs.cfg 1 "q-1").
    + reflexivity.
    + intros j Hj. exists "RUNNING".
      destruct j as [|j]; [split; reflexivity|lia].
    + reflexivity.
    + reflexivity.
  - lia.
Defined.

(** * Further properties of the script *)

(** ** Sequencing *)

Section Sequencing.

Context {A B : Type}.

Lemma trace_bind (m : M A) (k : A -> M B) :
  trace (bind m k) =
  (trace m ++ match ending m with
              | Returned a => trace (k a)
              | _ => []
              end)%list.
Proof.
  unfold bind, trace, ending. destruct (snd m); cbn [fst];
    [reflexivity|now rewrite app_nil_r..].
Qed.

Lemma ending_bind (m : M A) (k : A -> M B) :
  ending (bind m k) =
  match ending m with
  | Returned a => ending (k a)
  | Raised e => Raised e
  | Running => Running
  end.
Proof. unfold bind, ending. now destruct (snd m). Qed.

End Sequencing.

Lemma count_nil_or_cons (p : event -> bool) (e : event) (t : list event) :
  count p (e :: t) = (if p e then 1 else 0) + count p t.
Proof. unfold count. simpl. now destruct (p e). Qed.

(** A sequence calls an operation at most as often as its first part and
    whatever follows it together. *)
Lemma attempts_bind_le {A B} (o : operation) (m : M A) (k : A -> M B)
      (n1 n2 : nat) :
  attempts o (trace m) <= n1 ->
  (forall a, attempts o (trace (k a)) <= n2) ->
  attempts o (trace (bind m k)) <= n1 + n2.
Proof.
  intros Hm Hk. rewrite trace_bind. unfold attempts in *. rewrite count_app.
  destruct (ending m) as [a| |].
  - specialize (Hk a). lia.
  - cbn. lia.
  - cbn. lia.
Qed.

(** ** Where a run of [main] can end early *)

Section EarlyEnd.

Variable w : World.

Lemma main_ends_at_bucket (fuel : nat) (cfg : Config) (e : exn) :
  s3_create_bucket w (bucket_name cfg) (region cfg) = Fails e ->
  except_ClientError e = false ->
  main w fuel cfg =
  ([Call f_main;
    Print "Setting up data lake for NBA sports analytics...";
    Call f_create_s3_bucket;
    S3CreateBucket (bucket_name cfg) (region cfg)],
   Raised e).
Proof.
  intros Hs He.
  assert (Hrun : create_s3_bucket w (bucket_name cfg) (region cfg) =
                 ([Call f_create_s3_bucket;
                   S3CreateBucket (bucket_name cfg) (region cfg)],
                  Raised e)).
  { now rewrite create_s3_bucket_run, Hs, He. }
  unfold main. rewrite !bind_emit. cbn [trace ending fst snd].
  rewrite (bind_raised (create_s3_bucket w (bucket_name cfg) (region cfg))
             _ e) by now rewrite Hrun.
  now rewrite Hrun.
Qed.

Lemma main_ends_at_fetch (fuel : nat) (cfg : Config) (e : exn) :
  bucket_failure_caught w cfg = true ->
  ending (fetch_nba_players w (api_key cfg) (nba_endpoint cfg)) = Raised e ->
  main w fuel cfg =
  ((Call f_main ::
    Print "Setting up data lake for NBA sports analytics..." ::
    trace (create_s3_bucket w (bucket_name cfg) (region cfg)) ++
    Sleep 5 ::
    trace (create_glue_database w cfg) ++
    trace (fetch_nba_players w (api_key cfg) (nba_endpoint cfg)))%list,
   Raised e).
Proof.
  intros Hbucket Hfetch. unfold main.
  pose proof (create_s3_bucket_returns w cfg Hbucket) as H1.
  destruct (create_glue_database_run w cfg) as [l2 H2].
  rewrite !bind_emit. cbv beta.
  rewrite (bind_returned _ _ _ H1). cbv beta. cbn [trace ending fst snd].
  rewrite ?bind_emit. cbv beta.
  rewrite (bind_returned (create_glue_database w cfg) _ tt)
    by (rewrite H2; reflexivity).
  cbv beta. cbn [trace ending fst snd].
  rewrite (bind_raised _ _ _ Hfetch). reflexivity.
Qed.

Lemma fetch_nba_players_not_running (key endpoint : option string) :
  ending (fetch_nba_players w key endpoint) <> Running.
Proof.
  rewrite fetch_nba_players_run. cbv zeta.
  destruct (requests_get w endpoint key) as [r|e].
  - destruct (is_http_error_status r); [discriminate|].
    destruct (body r); discriminate.
  - destruct (except_HTTPError e); discriminate.
Qed.

End EarlyEnd.

(** ** The steps that catch every exception *)

(** X1.  [create_glue_database], [create_glue_table] and [configure_athena]
    never raise: each makes its one remote call and, whatever exception the
    service answers with, prints one line (the success line, or the error
    line with the text of the exception) and returns. *)
Theorem setup_steps_never_raise (w : World) (cfg : Config) :
  create_glue_database w cfg =
  ([Call f_create_glue_database;
    GlueCreateDatabase (glue_database_name cfg)
      "Glue database for NBA sports analytics.";
    Print match glue_create_database w (glue_database_name cfg)
                  "Glue database for NBA sports analytics." with
          | Ok _ => "Glue database '" ++ glue_database_name cfg ++
                    "' created successfully."
          | Fails e => "Error creating Glue database: " ++ exn_str e
          end],
   Returned tt) /\
  create_glue_table w cfg =
  ([Call f_create_glue_table;
    GlueCreateTable (glue_database_name cfg) (nba_players_table cfg);
    Print match glue_create_table w (glue_database_name cfg)
                  (nba_players_table cfg) with
          | Ok _ => "Glue table 'nba_players' created successfully."
          | Fails e => "Error creating Glue table: " ++ exn_str e
          end],
   Returned tt) /\
  configure_athena w cfg =
  ([Call f_configure_athena;
    AthenaStartQueryExecution "CREATE DATABASE IF NOT EXISTS nba_analytics"
      (glue_database_name cfg) (athena_output_location cfg);
    Print match athena_start_query_execution w
                  "CREATE DATABASE IF NOT EXISTS nba_analytics"
                  (glue_database_name cfg) (athena_output_location cfg) with
          | Ok _ => "Athena output location configured successfully."
          | Fails e => "Error configuring Athena: " ++ exn_str e
          end],
   Returned tt).
Proof.
  repeat split.
  - unfold create_glue_database, try_except, bind, remote, emit. simpl.
    destruct (glue_create_database w _ _) as [[]|e]; reflexivity.
  - unfold create_glue_table, try_except, bind, remote, emit. simpl.
    destruct (glue_create_table w _ _) as [[]|e]; reflexivity.
  - unfold configure_athena, try_except, bind, remote, emit. simpl.
    destruct (athena_start_query_execution w _ _ _) as [id|e]; reflexivity.
Qed.

(** X2.  [upload_data_to_s3] never raises.  For data that can be iterated
    over (a list, a dict, a string) and that [json.dumps] can serialize (no
    integer of more than 4300 digits, no nesting beyond what the
    interpreter allows) it puts exactly one object; for data that cannot be
    iterated over (a number, a boolean, [None]) it puts none and prints
    that the object is not iterable. *)
Theorem upload_data_to_s3_never_raises
  (w : World) (cfg : Config) (data : Json.value) :
  ending (upload_data_to_s3 w cfg data) = Returned tt /\
  (Json.serializable data = true ->
   match data with
   | Json.JArr _ | Json.JObj _ | Json.JStr _ =>
       attempts op_put_object (trace (upload_data_to_s3 w cfg data)) = 1
   | _ =>
       remote_calls (trace (upload_data_to_s3 w cfg data)) = [] /\
       trace (upload_data_to_s3 w cfg data) =
       [Call f_upload_data_to_s3; Call f_convert_to_line_delimited_json;
        Print "Converting data to line-delimited JSON format...";
        Print ("Error uploading data to S3: '" ++ type_name data ++
               "' object is not iterable")]
   end).
Proof.
  split; [apply upload_data_to_s3_run|]. intros _.
  unfold upload_data_to_s3, convert_to_line_delimited_json, iterate,
    try_except, bind, remote, emit, ending, trace.
  destruct data; simpl; try (split; reflexivity);
    destruct (s3_put_object w _ _ _) as [[]|e]; reflexivity.
Qed.

Lemma upload_data_to_s3_never_raises_witness :
  let w := Stubs.world Stubs.two_players ["SUCCEEDED"] Stubs.count_row in
  ending (upload_data_to_s3 w Stubs.cfg Stubs.two_players) = Returned tt /\
  attempts op_put_object
    (trace (upload_data_to_s3 w Stubs.cfg Stubs.two_players)) = 1.
Proof.
  destruct (upload_data_to_s3_never_raises
              (Stubs.world Stubs.two_players ["SUCCEEDED"] Stubs.count_row)
              Stubs.cfg Stubs.two_players) as [Hreturns Hput].
  split; [exact Hreturns|]. apply Hput. reflexivity.
Defined.

(** X3.  Given a JSON object instead of a list of records,
    [upload_data_to_s3] iterates over its keys: the object it puts holds one
    line per member, the quoted name of the member, and none of the
    values. *)
Theorem upload_data_to_s3_of_object_writes_keys
  (w : World) (cfg : Config) (members : list (pystr * Json.value)) :
  remote_calls (trace (upload_data_to_s3 w cfg (Json.JObj members))) =
  [S3PutObject (bucket_name cfg) "raw-data/nba_player_data.jsonl"
     (String.concat newline
        (map (fun kv => Json.encode_basestring_ascii (fst kv)) members))].
Proof.
  unfold upload_data_to_s3, convert_to_line_delimited_json, iterate,
    try_except, bind, remote, emit, ending, trace. simpl.
  rewrite map_map.
  destruct (s3_put_object w _ _ _) as [[]|e]; reflexivity.
Qed.

(** ** The Storage Provisioner, when the failure is no [ClientError] *)

(** X4.  When bucket creation fails with an exception that is not a
    [ClientError], [create_s3_bucket] raises it and [main] ends with it at
    once: no sleep, and no other remote call than the one that failed. *)
Theorem create_s3_bucket_other_failure_ends_main
  (w : World) (cfg : Config) (e : exn) :
  s3_create_bucket w (bucket_name cfg) (region cfg) = Fails e ->
  except_ClientError e = false ->
  ending (create_s3_bucket w (bucket_name cfg) (region cfg)) = Raised e /\
  forall fuel,
    ending (main w fuel cfg) = Raised e /\
    remote_calls (trace (main w fuel cfg)) =
    [S3CreateBucket (bucket_name cfg) (region cfg)] /\
    calls (trace (main w fuel cfg)) = [f_main; f_create_s3_bucket] /\
    ~ In (Sleep 5) (trace (main w fuel cfg)).
Proof.
  intros Hs He. split.
  - now rewrite create_s3_bucket_run, Hs, He.
  - intros fuel. rewrite (main_ends_at_bucket w fuel cfg e Hs He).
    repeat split. simpl. intuition discriminate.
Qed.

Lemma create_s3_bucket_other_failure_ends_main_witness :
  let w := Stubs.with_bucket (Fails Stubs.endpoint_unreachable)
             (Stubs.world Stubs.two_players ["SUCCEEDED"] Stubs.count_row) in
  ending (create_s3_bucket w (bucket_name Stubs.cfg) (region Stubs.cfg))
  = Raised Stubs.endpoint_unreachable /\
  forall fuel,
    ending (main w fuel Stubs.cfg) = Raised Stubs.endpoint_unreachable /\
    remote_calls (trace (main w fuel Stubs.cfg)) =
    [S3CreateBucket (bucket_name Stubs.cfg) (region Stubs.cfg)] /\
    calls (trace (main w fuel Stubs.cfg)) = [f_main; f_create_s3_bucket] /\
    ~ In (Sleep 5) (trace (main w fuel Stubs.cfg)).
Proof.
  apply (create_s3_bucket_other_failure_ends_main
           (Stubs.with_bucket (Fails Stubs.endpoint_unreachable)
              (Stubs.world Stubs.two_players ["SUCCEEDED"] Stubs.count_row))
           Stubs.cfg Stubs.endpoint_unreachable).
  - reflexivity.
  - reflexivity.
Defined.

(** ** The Query Orchestrator, when a call fails *)

(** X5.  When Athena refuses the submission of the count query,
    [query_athena] polls nothing and asks for no results: after a
    [ClientError] it prints the error and returns [None], after any other
    exception it raises it. *)
Theorem query_athena_submission_failure
  (w : World) (fuel : nat) (database table output_location : string)
  (e : exn) :
  athena_start_query_execution w (count_query database table) database
    output_location = Fails e ->
  query_athena w fuel database table output_location =
  if except_ClientError e then
    ([Call f_query_athena;
      AthenaStartQueryExecution (count_query database table) database
        output_location;
      Print ("Error while querying Athena: " ++ exn_str e)],
     Returned None)
  else
    ([Call f_query_athena;
      AthenaStartQueryExecution (count_query database table) database
        output_location],
     Raised e).
Proof. intros Hstart. rewrite query_athena_run. cbv zeta. now rewrite Hstart. Qed.

Lemma query_athena_submission_failure_witness :
  query_athena
    (Stubs.with_submission (Fails Stubs.access_denied)
       (Stubs.world Stubs.two_players ["SUCCEEDED"] Stubs.count_row))
    3 "demo_db" "players" "s3://demo-lake/athena-results/" =
  if except_ClientError Stubs.access_denied then
    ([Call f_query_athena;
      AthenaStartQueryExecution (count_query "demo_db" "players") "demo_db"
        "s3://demo-lake/athena-results/";
      Print ("Error while querying Athena: " ++ exn_str Stubs.access_denied)],
     Returned None)
  else
    ([Call f_query_athena;
      AthenaStartQueryExecution (count_query "demo_db" "players") "demo_db"
        "s3://demo-lake/athena-results/"],
     Raised Stubs.access_denied).
Proof.
  apply (query_athena_submission_failure
           (Stubs.with_submission (Fails Stubs.access_denied)
              (Stubs.world Stubs.two_players ["SUCCEEDED"] Stubs.count_row))
           3 "demo_db" "players" "s3://demo-lake/athena-results/"
           Stubs.access_denied).
  reflexivity.
Defined.

(** X6.  When a poll fails after [m] polls that reported states that are
    not terminal, [query_athena] stops polling there and never asks for the
    results: after a [ClientError] it prints the error and returns [None],
    after any other exception it raises it. *)
Theorem query_athena_poll_failure
  (w : World) (database table output_location id : string) (m : nat)
  (e : exn) :
  athena_start_query_execution w (count_query database table) database
    output_location = Ok id ->
  polls_continue w id m ->
  athena_get_query_execution w id m = Fails e ->
  forall fuel, m < fuel ->
    let polled :=
      ([Call f_query_athena;
        AthenaStartQueryExecution (count_query database table) database
          output_location;
        Print ("Query Execution ID: " ++ id)] ++ polling_trace id m)%list in
    query_athena w fuel database table output_location =
    (if except_ClientError e then
       ((polled ++ [Print ("Error while querying Athena: " ++ exn_str e)])%list,
        Returned None)
     else (polled, Raised e)) /\
    attempts op_get_query_results
      (trace (query_athena w fuel database table output_location)) = 0.
Proof.
  intros Hstart Hgo Hpoll fuel Hfuel polled.
  assert (Hpolled : attempts op_get_query_results polled = 0).
  { unfold polled, attempts. rewrite count_app. cbn [count filter uses
      operation_of operation_eqb List.length].
    clear. induction m; [reflexivity|exact IHm]. }
  assert (Hrun : query_athena w fuel database table output_location =
                 if except_ClientError e then
                   ((polled ++
                     [Print ("Error while querying Athena: " ++ exn_str e)])%list,
                    Returned None)
                 else (polled, Raised e)).
  { rewrite query_athena_run. cbv zeta. rewrite Hstart.
    rewrite (wait_for_query_from w id m 0 fuel (Fails e));
      try assumption; try exact I.
    cbn [trace ending fst snd]. reflexivity. }
  split; [exact Hrun|]. rewrite Hrun.
  destruct (except_ClientError e); cbn [trace fst].
  - unfold attempts in *. rewrite count_app, Hpolled. reflexivity.
  - exact Hpolled.
Qed.

Lemma query_athena_poll_failure_witness :
  let w := Stubs.with_polls Stubs.refused_at_second_poll
             (Stubs.world Stubs.two_players [] Stubs.count_row) in
  let polled :=
    ([Call f_query_athena;
      AthenaStartQueryExecution (count_query "demo_db" "players") "demo_db"
        "s3://demo-lake/athena-results/";
      Print ("Query Execution ID: " ++ "q-1")] ++ polling_trace "q-1" 1)%list in
  query_athena w 2 "demo_db" "players" "s3://demo-lake/athena-results/" =
  (if except_ClientError Stubs.access_denied then
     ((polled ++
       [Print ("Error while querying Athena: " ++
               exn_str Stubs.access_denied)])%list,
      Returned None)
   else (polled, Raised Stubs.access_denied)) /\
  attempts op_get_query_results
    (trace (query_athena w 2 "demo_db" "players"
              "s3://demo-lake/athena-results/")) = 0.
Proof.
  apply (query_athena_poll_failure
           (Stubs.with_polls Stubs.refused_at_second_poll
              (Stubs.world Stubs.two_players [] Stubs.count_row))
           "demo_db" "players" "s3://demo-lake/athena-results/" "q-1" 1
           Stubs.access_denied).
  - reflexivity.
  - intros j Hj. exists "RUNNING".
    destruct j as [|j]; [split; reflexivity|lia].
  - reflexivity.
  - lia.
Defined.

(** X7.  When the query reaches SUCCEEDED and the call for its results
    fails, [query_athena] has made that one call and returns no rows: after
    a [ClientError] it prints the error and returns [None], after any other
    exception it raises it. *)
Theorem query_athena_results_failure
  (w : World) (database table output_location id : string) (m : nat)
  (e : exn) :
  athena_start_query_execution w (count_query database table) database
    output_location = Ok id ->
  polls_continue w id m ->
  athena_get_query_execution w id m = Ok "SUCCEEDED" ->
  athena_get_query_results w id = Fails e ->
  forall fuel, m < fuel ->
    let polled :=
      ([Call f_query_athena;
        AthenaStartQueryExecution (count_query database table) database
          output_location;
        Print ("Query Execution ID: " ++ id)] ++ polling_trace id m)%list in
    query_athena w fuel database table output_location =
    if except_ClientError e then
      ((polled ++
        [AthenaGetQueryResults id;
         Print ("Error while querying Athena: " ++ exn_str e)])%list,
       Returned None)
    else ((polled ++ [AthenaGetQueryResults id])%list, Raised e).
Proof.
  intros Hstart Hgo Hpoll Hrows fuel Hfuel polled.
  rewrite query_athena_run. cbv zeta. rewrite Hstart.
  rewrite (wait_for_query_from w id m 0 fuel (Ok "SUCCEEDED"));
    try assumption; try reflexivity.
  cbn [trace ending fst snd]. rewrite Hrows. reflexivity.
Qed.

Lemma query_athena_results_failure_witness :
  let w := Stubs.with_results (Fails Stubs.access_denied)
             (Stubs.world Stubs.two_players ["RUNNING"; "SUCCEEDED"]
                Stubs.count_row) in
  let polled :=
    ([Call f_query_athena;
      AthenaStartQueryExecution (count_query "demo_db" "players") "demo_db"
        "s3://demo-lake/athena-results/";
      Print ("Query Execution ID: " ++ "q-1")] ++ polling_trace "q-1" 1)%list in
  query_athena w 2 "demo_db" "players" "s3://demo-lake/athena-results/" =
  if except_ClientError Stubs.access_denied then
    ((polled ++
      [AthenaGetQueryResults "q-1";
       Print ("Error while querying Athena: " ++
              exn_str Stubs.access_denied)])%list,
     Returned None)
  else ((polled ++ [AthenaGetQueryResults "q-1"])%list,
        Raised Stubs.access_denied).
Proof.
  apply (query_athena_results_failure
           (Stubs.with_results (Fails Stubs.access_denied)
              (Stubs.world Stubs.two_players ["RUNNING"; "SUCCEEDED"]
                 Stubs.count_row))
           "demo_db" "players" "s3://demo-lake/athena-results/" "q-1" 1
           Stubs.access_denied).
  - reflexivity.
  - intros j Hj. exists "RUNNING".
    destruct j as [|j]; [split; reflexivity|lia].
  - reflexivity.
  - reflexivity.
  - lia.
Defined.

(** ** The External Data Source Client, for answers that are no error *)

(** For a response whose status is not 4xx or 5xx and whose body is a JSON
    document, [fetch_nba_players] returns the decoded document as it is,
    after exactly one request and without printing any error. *)
Lemma fetch_nba_players_returns_document
  (w : World) (key endpoint : option string) (r : response)
  (document : Json.value) :
  requests_get w endpoint key = Ok r ->
  is_http_error_status r = false ->
  body r = Some document ->
  fetch_nba_players w key endpoint =
  ([Call f_fetch_nba_players; PrintHeaders key; RequestsGet endpoint key],
   Returned document).
Proof.
  intros Hget Hstatus Hbody.
  rewrite fetch_nba_players_run. cbv zeta.
  now rewrite Hget, Hstatus, Hbody.
Qed.

(** X8.  For a response whose status is not 4xx or 5xx and whose body is
    not a JSON document, [response.json()] raises a decoding error that
    [fetch_nba_players] does not catch; a run of [main] that got to the
    fetch ends with it, after the FETCH step: nothing is uploaded, no table
    is created and no query is run. *)
Theorem fetch_nba_players_undecodable_body_ends_main
  (w : World) (cfg : Config) (r : response) :
  requests_get w (nba_endpoint cfg) (api_key cfg) = Ok r ->
  is_http_error_status r = false ->
  body r = None ->
  bucket_failure_caught w cfg = true ->
  exists e,
    except_HTTPError e = false /\
    ending (fetch_nba_players w (api_key cfg) (nba_endpoint cfg)) = Raised e /\
    forall fuel,
      ending (main w fuel cfg) = Raised e /\
      calls (trace (main w fuel cfg)) =
      [f_main; f_create_s3_bucket; f_create_glue_database;
       f_fetch_nba_players] /\
      remote_calls (trace (main w fuel cfg)) =
      [S3CreateBucket (bucket_name cfg) (region cfg);
       GlueCreateDatabase (glue_database_name cfg)
         "Glue database for NBA sports analytics.";
       RequestsGet (nba_endpoint cfg) (api_key cfg)].
Proof.
  intros Hget Hstatus Hbody Hbucket.
  exists (OtherException "JSONDecodeError"
            "Expecting value: line 1 column 1 (char 0)").
  assert (Hfetch :
            fetch_nba_players w (api_key cfg) (nba_endpoint cfg) =
            ([Call f_fetch_nba_players; PrintHeaders (api_key cfg);
              RequestsGet (nba_endpoint cfg) (api_key cfg)],
             Raised (OtherException "JSONDecodeError"
                       "Expecting value: line 1 column 1 (char 0)"))).
  { rewrite fetch_nba_players_run. cbv zeta.
    now rewrite Hget, Hstatus, Hbody. }
  split; [reflexivity|]. split; [now rewrite Hfetch|].
  intros fuel.
  rewrite (main_ends_at_fetch w fuel cfg _ Hbucket
             ltac:(rewrite Hfetch; reflexivity)).
  rewrite Hfetch.
  destruct (create_glue_database_run w cfg) as [l2 ->].
  unfold bucket_failure_caught, caught_by in Hbucket.
  rewrite create_s3_bucket_run.
  destruct (s3_create_bucket w _ _) as [[]|e'].
  - repeat split.
  - rewrite Hbucket. repeat split.
Qed.

Lemma fetch_nba_players_undecodable_body_ends_main_witness :
  let w := Stubs.with_request (Ok Stubs.html_response)
             (Stubs.world Stubs.two_players ["SUCCEEDED"] Stubs.count_row) in
  exists e,
    except_HTTPError e = false /\
    ending (fetch_nba_players w (api_key Stubs.cfg) (nba_endpoint Stubs.cfg))
    = Raised e /\
    forall fuel,
      ending (main w fuel Stubs.cfg) = Raised e /\
      calls (trace (main w fuel Stubs.cfg)) =
      [f_main; f_create_s3_bucket; f_create_glue_database;
       f_fetch_nba_players] /\
      remote_calls (trace (main w fuel Stubs.cfg)) =
      [S3CreateBucket (bucket_name Stubs.cfg) (region Stubs.cfg);
       GlueCreateDatabase (glue_database_name Stubs.cfg)
         "Glue database for NBA sports analytics.";
       RequestsGet (nba_endpoint Stubs.cfg) (api_key Stubs.cfg)].
Proof.
  apply (fetch_nba_players_undecodable_body_ends_main
           (Stubs.with_request (Ok Stubs.html_response)
              (Stubs.world Stubs.two_players ["SUCCEEDED"] Stubs.count_row))
           Stubs.cfg Stubs.html_response).
  - reflexivity.
  - reflexivity.
  - reflexivity.
  - reflexivity.
Defined.

(** ** No operation is retried *)

Section Attempts.

Variable w : World.
Variable o : operation.

Lemma attempts_emit_local (e : event) :
  operation_of e = None -> attempts o (trace (emit e)) <= 0.
Proof.
  intros He. unfold attempts, count, uses. cbn [trace emit fst filter].
  rewrite He. reflexivity.
Qed.

Lemma attempts_create_s3_bucket (bucket region : string) :
  attempts o (trace (create_s3_bucket w bucket region))
  <= if operation_eqb o op_create_bucket then 1 else 0.
Proof.
  rewrite create_s3_bucket_run.
  destruct (s3_create_bucket w bucket region) as [[]|e];
    [|destruct (except_ClientError e)]; destruct o; cbn; lia.
Qed.

Lemma attempts_create_glue_database (cfg : Config) :
  attempts o (trace (create_glue_database w cfg))
  <= if operation_eqb o op_create_database then 1 else 0.
Proof.
  destruct (create_glue_database_run w cfg) as [line ->].
  destruct o; cbn; lia.
Qed.

Lemma attempts_create_glue_table (cfg : Config) :
  attempts o (trace (create_glue_table w cfg))
  <= if operation_eqb o op_create_table then 1 else 0.
Proof.
  destruct (create_glue_table_run w cfg) as [line ->].
  destruct o; cbn; lia.
Qed.

Lemma attempts_configure_athena (cfg : Config) :
  attempts o (trace (configure_athena w cfg))
  <= if operation_eqb o op_start_query_execution then 1 else 0.
Proof.
  destruct (configure_athena_run w cfg) as [line ->].
  destruct o; cbn; lia.
Qed.

Lemma attempts_fetch_nba_players (key endpoint : option string) :
  attempts o (trace (fetch_nba_players w key endpoint))
  <= if operation_eqb o op_requests_get then 1 else 0.
Proof.
  rewrite fetch_nba_players_run. cbv zeta.
  destruct (requests_get w endpoint key) as [r|e].
  - destruct (is_http_error_status r); [|destruct (body r)];
      destruct o; cbn; lia.
  - destruct (except_HTTPError e); destruct o; cbn; lia.
Qed.

Lemma attempts_upload_data_to_s3 (cfg : Config) (data : Json.value) :
  attempts o (trace (upload_data_to_s3 w cfg data))
  <= if operation_eqb o op_put_object then 1 else 0.
Proof.
  unfold upload_data_to_s3, convert_to_line_delimited_json, iterate,
    try_except, bind, remote, emit, ending, trace.
  destruct data; simpl;
    try (destruct (s3_put_object w _ _ _) as [[]|e]; simpl);
    destruct o; cbn; lia.
Qed.

Lemma attempts_wait_for_query (id : string) (fuel : nat) :
  o <> op_get_query_execution ->
  forall k, attempts o (trace (wait_for_query w fuel id k)) = 0.
Proof.
  intros Hne. induction fuel as [|fuel IH]; intros k; [reflexivity|].
  rewrite wait_for_query_step.
  destruct (athena_get_query_execution w id k) as [s|e].
  - destruct (terminal s).
    + destruct o; try reflexivity. congruence.
    + cbn [trace fst]. unfold attempts in *.
      rewrite !count_nil_or_cons, IH.
      destruct o; try reflexivity. congruence.
  - destruct o; try reflexivity. congruence.
Qed.

Lemma attempts_query_athena
      (fuel : nat) (database table output_location : string) :
  o <> op_get_query_execution ->
  attempts o (trace (query_athena w fuel database table output_location))
  <= (if operation_eqb o op_start_query_execution then 1 else 0) +
     (if operation_eqb o op_get_query_results then 1 else 0).
Proof.
  intros Hne. rewrite query_athena_run. cbv zeta.
  destruct (athena_start_query_execution w _ _ _) as [id|e].
  - pose proof (attempts_wait_for_query id fuel Hne 0) as Hw.
    unfold attempts in *.
    destruct (ending (wait_for_query w fuel id 0)) as [s|e|];
      [destruct (String.eqb s "SUCCEEDED");
       [destruct (athena_get_query_results w id) as [rows|e'];
        [|destruct (except_ClientError e')]|]
      |destruct (except_ClientError e)|];
      cbn [trace fst];
      rewrite ?count_app, !count_nil_or_cons, ?count_app, Hw;
      destruct o; cbn; (lia || congruence).
  - destruct (except_ClientError e); destruct o; cbn; lia.
Qed.

Lemma attempts_report (athena_results : option (list row)) :
  attempts o (trace (report athena_results)) <= 0.
Proof.
  assert (Hrows : forall rows, attempts o (map PrintRow rows) = 0).
  { induction rows as [|r rows IH]; [reflexivity|exact IH]. }
  unfold report. destruct athena_results as [[|r rows]|]; cbn;
    try (unfold attempts, count; cbn; lia).
  change (attempts o (Print "Athena query results:" :: PrintRow r ::
                      map PrintRow rows) <= 0).
  unfold attempts in *. rewrite !count_nil_or_cons, Hrows. cbn. lia.
Qed.

End Attempts.

(** X9.  In every run of [main], whatever the services answer and however
    the run ends, no operation other than the poll of the query state is
    attempted more than once, except [start_query_execution], which is
    called at most twice (once by [configure_athena], once by
    [query_athena]): nothing is retried. *)
Theorem main_never_retries
  (w : World) (fuel : nat) (cfg : Config) (o : operation) :
  o <> op_get_query_execution ->
  attempts o (trace (main w fuel cfg))
  <= if operation_eqb o op_start_query_execution then 2 else 1.
Proof.
  intros Hne.
  apply Nat.le_trans
    with (0 + (0 + ((if operation_eqb o op_create_bucket then 1 else 0) +
          (0 + ((if operation_eqb o op_create_database then 1 else 0) +
          ((if operation_eqb o op_requests_get then 1 else 0) +
          ((if operation_eqb o op_put_object then 1 else 0) +
          ((if operation_eqb o op_create_table then 1 else 0) +
          ((if operation_eqb o op_start_query_execution then 1 else 0) +
          (0 + (((if operation_eqb o op_start_query_execution then 1 else 0) +
                 (if operation_eqb o op_get_query_results then 1 else 0)) +
                0))))))))))).
  - unfold main.
    apply attempts_bind_le; [now apply attempts_emit_local|intros _].
    apply attempts_bind_le; [now apply attempts_emit_local|intros _].
    apply attempts_bind_le; [apply attempts_create_s3_bucket|intros _].
    apply attempts_bind_le; [now apply attempts_emit_local|intros _].
    apply attempts_bind_le; [apply attempts_create_glue_database|intros _].
    apply attempts_bind_le; [apply attempts_fetch_nba_players|intros data].
    apply attempts_bind_le.
    { destruct (Json.truthy data); [apply attempts_upload_data_to_s3|].
      destruct o; cbn; lia. }
    intros _.
    apply attempts_bind_le; [apply attempts_create_glue_table|intros _].
    apply attempts_bind_le; [apply attempts_configure_athena|intros _].
    apply attempts_bind_le; [now apply attempts_emit_local|intros _].
    apply attempts_bind_le; [now apply attempts_query_athena|intros r].
    apply attempts_report.
  - destruct o; cbn; lia || congruence.
Qed.

Lemma main_never_retries_witness :
  attempts op_start_query_execution
    (trace (main Stubs.failing_world 2 Stubs.cfg))
  <= if operation_eqb op_start_query_execution op_start_query_execution
     then 2 else 1.
Proof.
  apply (main_never_retries Stubs.failing_world 2 Stubs.cfg
           op_start_query_execution).
  discriminate.
Defined.

(** ** The order of the steps *)

(** X10.  In every run of [main], whatever the services answer and however
    the run ends, the functions entered are an initial part of the fixed
    sequence of the script, with or without the upload: no step is entered
    out of order, twice, or after a later one. *)
Theorem main_enters_steps_in_order (w : World) (fuel : nat) (cfg : Config) :
  initial_part (calls (trace (main w fuel cfg)))
    [f_main; f_create_s3_bucket; f_create_glue_database; f_fetch_nba_players;
     f_upload_data_to_s3; f_convert_to_line_delimited_json;
     f_create_glue_table; f_configure_athena; f_query_athena] \/
  initial_part (calls (trace (main w fuel cfg)))
    [f_main; f_create_s3_bucket; f_create_glue_database; f_fetch_nba_players;
     f_create_glue_table; f_configure_athena; f_query_athena].
Proof.
  destruct (bucket_failure_caught w cfg) eqn:Hbucket.
  - destruct (ending (fetch_nba_players w (api_key cfg) (nba_endpoint cfg)))
      as [data|e|] eqn:Hfetch.
    + rewrite (main_calls w fuel cfg data Hbucket Hfetch).
      destruct (Json.truthy data); [left|right]; exists []; reflexivity.
    + right. rewrite (main_ends_at_fetch w fuel cfg e Hbucket Hfetch).
      cbn [trace fst].
      destruct (create_glue_database_run w cfg) as [l2 ->]. cbn [trace fst].
      change (calls (?a :: ?b :: ?t)) with (calls [a; b] ++ calls t)%list.
      rewrite calls_app, create_s3_bucket_calls.
      change (calls (?a :: ?t)) with (calls [a] ++ calls t)%list.
      rewrite !calls_app, fetch_nba_players_calls.
      eexists. reflexivity.
    + now apply fetch_nba_players_not_running in Hfetch.
  - unfold bucket_failure_caught, caught_by in Hbucket.
    destruct (s3_create_bucket w (bucket_name cfg) (region cfg))
      as [[]|e] eqn:Hs; [discriminate|].
    right. rewrite (main_ends_at_bucket w fuel cfg e Hs Hbucket).
    eexists. reflexivity.
Qed.

(** ** The report of the driver, when there are rows *)

Section RunShape.

Variable w : World.

Lemma main_shape_middle (a b c d : event)
      (t1 t2 t3 t4 t5 t6 post : list event) :
  exists pre,
    (a :: b :: t1 ++ c :: t2 ++ t3 ++ t4 ++ t5 ++ t6 ++ d :: post)%list
    = (pre ++ d :: post)%list.
Proof.
  exists (a :: b :: t1 ++ c :: t2 ++ t3 ++ t4 ++ t5 ++ t6)%list.
  repeat (rewrite <- app_comm_cons || rewrite <- app_assoc).
  reflexivity.
Qed.

(** A run of [main] that gets past the bucket has in its trace the whole
    trace of [fetch_nba_players]. *)
Lemma main_holds_fetch (fuel : nat) (cfg : Config) :
  bucket_failure_caught w cfg = true ->
  exists pre post,
    trace (main w fuel cfg) =
    (pre ++ trace (fetch_nba_players w (api_key cfg) (nba_endpoint cfg)) ++
     post)%list.
Proof.
  intros Hbucket.
  destruct (ending (fetch_nba_players w (api_key cfg) (nba_endpoint cfg)))
    as [data|e|] eqn:Hfetch.
  - rewrite (main_run w fuel cfg data Hbucket Hfetch). cbv zeta.
    cbn [trace fst].
    exists (Call f_main ::
            Print "Setting up data lake for NBA sports analytics..." ::
            trace (create_s3_bucket w (bucket_name cfg) (region cfg)) ++
            Sleep 5 :: trace (create_glue_database w cfg))%list.
    eexists.
    repeat (rewrite <- app_comm_cons || rewrite <- app_assoc).
    reflexivity.
  - rewrite (main_ends_at_fetch w fuel cfg e Hbucket Hfetch).
    cbn [trace fst].
    exists (Call f_main ::
            Print "Setting up data lake for NBA sports analytics..." ::
            trace (create_s3_bucket w (bucket_name cfg) (region cfg)) ++
            Sleep 5 :: trace (create_glue_database w cfg))%list.
    exists [].
    repeat (rewrite <- app_comm_cons || rewrite <- app_assoc).
    now rewrite app_nil_r.
  - now apply fetch_nba_players_not_running in Hfetch.
Qed.

End RunShape.

(** X11.  In a run of [main] that gets to the query, if the query reaches
    SUCCEEDED and its result set has at least one row, [main] returns after
    printing the heading and then every row of the result set, one print
    per row, in the order of the result set, right after the call that
    fetched them. *)
Theorem main_prints_rows_in_order
  (w : World) (cfg : Config) (id : string) (m : nat)
  (r : row) (rows : list row) :
  bucket_failure_caught w cfg = true ->
  fetch_failure_caught w cfg = true ->
  athena_start_query_execution w
    (count_query (glue_database_name cfg) (glue_table_name cfg))
    (glue_database_name cfg) (athena_output_location cfg) = Ok id ->
  polls_continue w id m ->
  athena_get_query_execution w id m = Ok "SUCCEEDED" ->
  athena_get_query_results w id = Ok (r :: rows) ->
  forall fuel, m < fuel ->
    ending (main w fuel cfg) = Returned tt /\
    exists t,
      trace (main w fuel cfg) =
      (t ++ AthenaGetQueryResults id :: Print "Athena query results:" ::
       map PrintRow (r :: rows))%list.
Proof.
  intros Hbucket Hfetch Hstart Hgo Hpoll Hrows fuel Hfuel.
  destruct (fetch_nba_players_returns w cfg Hfetch) as [data Hdata].
  assert (Hquery :
            query_athena w fuel (glue_database_name cfg) (glue_table_name cfg)
              (athena_output_location cfg) =
            ((Call f_query_athena
              :: AthenaStartQueryExecution
                   (count_query (glue_database_name cfg) (glue_table_name cfg))
                   (glue_database_name cfg) (athena_output_location cfg)
              :: Print ("Query Execution ID: " ++ id)
              :: polling_trace id m ++ [AthenaGetQueryResults id])%list,
             Returned (Some (r :: rows)))).
  { rewrite query_athena_run. cbv zeta. rewrite Hstart.
    rewrite (wait_for_query_from w id m 0 fuel (Ok "SUCCEEDED"));
      try assumption; try reflexivity.
    cbn [trace ending fst snd]. now rewrite Hrows. }
  split.
  - rewrite (main_run w fuel cfg data Hbucket Hdata). cbv zeta.
    cbn [ending snd]. now rewrite Hquery.
  - destruct (main_ends_with_query w fuel cfg data Hbucket Hdata) as [pre ->].
    rewrite Hquery. cbn [trace ending fst snd].
    change (trace (report (Some (r :: rows))))
      with (Print "Athena query results:" :: map PrintRow (r :: rows)).
    exists (pre ++ Call f_query_athena
              :: AthenaStartQueryExecution
                   (count_query (glue_database_name cfg) (glue_table_name cfg))
                   (glue_database_name cfg) (athena_output_location cfg)
              :: Print ("Query Execution ID: " ++ id)
              :: polling_trace id m)%list.
    repeat (rewrite <- app_comm_cons || rewrite <- app_assoc).
    reflexivity.
Qed.

Lemma main_prints_rows_in_order_witness :
  let w := Stubs.world Stubs.two_players ["RUNNING"; "SUCCEEDED"]
             Stubs.count_row in
  ending (main w 2 Stubs.cfg) = Returned tt /\
  exists t,
    trace (main w 2 Stubs.cfg) =
    (t ++ AthenaGetQueryResults "q-1" :: Print "Athena query results:" ::
     map PrintRow [[Some "_col0"]; [Some "2"]])%list.
Proof.
  apply (main_prints_rows_in_order
           (Stubs.world Stubs.two_players ["RUNNING"; "SUCCEEDED"]
              Stubs.count_row)
           Stubs.cfg "q-1" 1 [Some "_col0"] [[Some "2"]]).
  - reflexivity.
  - reflexivity.
  - reflexivity.
  - intros j Hj. exists "RUNNING".
    destruct j as [|j]; [split; reflexivity|lia].
  - reflexivity.
  - reflexivity.
  - lia.
Defined.

(** ** The completion line *)

(** X12.  In every run of [main] that gets past the fetch, the line
    [Data lake setup complete.] is printed, just before [query_athena] is
    entered, whatever Glue, S3 and Athena answered to the database, upload,
    table and set-up steps. *)
Theorem main_prints_completion_whatever_setup_answers
  (w : World) (cfg : Config) :
  bucket_failure_caught w cfg = true ->
  fetch_failure_caught w cfg = true ->
  forall fuel,
  exists pre post,
    trace (main w fuel cfg) =
    (pre ++ Print "Data lake setup complete." :: post)%list /\
    calls post = [f_query_athena] /\
    ~ In f_query_athena (calls pre).
Proof.
  intros Hbucket Hfetch fuel.
  destruct (fetch_nba_players_returns w cfg Hfetch) as [data Hdata].
  rewrite (main_run w fuel cfg data Hbucket Hdata). cbv zeta.
  cbn [trace fst].
  eexists (Call f_main ::
           Print "Setting up data lake for NBA sports analytics..." ::
           trace (create_s3_bucket w (bucket_name cfg) (region cfg)) ++
           Sleep 5 ::
           trace (create_glue_database w cfg) ++
           trace (fetch_nba_players w (api_key cfg) (nba_endpoint cfg)) ++
           (if Json.truthy data
            then trace (upload_data_to_s3 w cfg data) else []) ++
           trace (create_glue_table w cfg) ++
           trace (configure_athena w cfg))%list.
  eexists. split; [|split].
  - repeat (rewrite <- app_comm_cons || rewrite <- app_assoc). reflexivity.
  - rewrite calls_app, query_athena_calls.
    destruct (ending (query_athena w fuel (glue_database_name cfg)
                        (glue_table_name cfg) (athena_output_location cfg)))
      as [r| |]; [|reflexivity..].
    now rewrite (proj2 (report_returns r)).
  - destruct (create_glue_database_run w cfg) as [l2 ->].
    destruct (create_glue_table_run w cfg) as [l5 ->].
    destruct (configure_athena_run w cfg) as [l6 ->].
    cbn [trace fst].
    change (calls (?a :: ?b :: ?t)) with (calls [a; b] ++ calls t)%list.
    rewrite calls_app, create_s3_bucket_calls.
    change (calls (?a :: ?t)) with (calls [a] ++ calls t)%list.
    rewrite !calls_app, fetch_nba_players_calls.
    destruct (Json.truthy data).
    + rewrite (proj2 (upload_data_to_s3_run w cfg data)).
      simpl. intuition discriminate.
    + simpl. intuition discriminate.
Qed.

Lemma main_prints_completion_whatever_setup_answers_witness :
  exists pre post,
    trace (main Stubs.failing_world 2 Stubs.cfg) =
    (pre ++ Print "Data lake setup complete." :: post)%list /\
    calls post = [f_query_athena] /\
    ~ In f_query_athena (calls pre).
Proof.
  apply (main_prints_completion_whatever_setup_answers
           Stubs.failing_world Stubs.cfg).
  - reflexivity.
  - reflexivity.
Defined.

(** ** The locations under the bucket *)

Lemma prefix_after_common (a x y : string) :
  String.prefix (a ++ x) (a ++ y) = String.prefix x y.
Proof.
  induction a as [|c a IH]; [reflexivity|].
  simpl. destruct (ascii_dec c c); [exact IH|congruence].
Qed.

(** X13.  For every bucket name, the location Athena writes its result
    files to and the location the table reads its data from are apart:
    neither is inside the other, so the results of a query never become
    data of the table; and the object the uploader writes is inside the
    location of the table and outside the location of the results. *)
Theorem athena_results_apart_from_table_data (cfg : Config) :
  String.prefix (ti_location (nba_players_table cfg))
    (athena_output_location cfg) = false /\
  String.prefix (athena_output_location cfg)
    (ti_location (nba_players_table cfg)) = false /\
  String.prefix (ti_location (nba_players_table cfg))
    (object_address (bucket_name cfg) "raw-data/nba_player_data.jsonl") = true /\
  String.prefix (athena_output_location cfg)
    (object_address (bucket_name cfg) "raw-data/nba_player_data.jsonl") = false.
Proof.
  unfold athena_output_location, object_address. cbn [ti_location nba_players_table].
  rewrite !prefix_after_common. repeat split.
Qed.

(** ** The payload is plain ASCII *)

Section Printable.

Lemma all_printable_app (a b : string) :
  all_printable (a ++ b) = all_printable a && all_printable b.
Proof.
  induction a as [|c a IH]; simpl; [reflexivity|].
  now rewrite IH, andb_assoc.
Qed.

Lemma all_printable_decimal (d : uint) :
  all_printable (DecimalString.NilEmpty.string_of_uint d) = true.
Proof. induction d; simpl; auto. Qed.

Lemma all_printable_decimal_zero (d : uint) :
  all_printable (DecimalString.NilZero.string_of_uint d) = true.
Proof. destruct d; try reflexivity; apply all_printable_decimal. Qed.

Lemma all_printable_hexadecimal (d : Hexadecimal.uint) :
  all_printable (HexadecimalString.NilEmpty.string_of_uint d) = true.
Proof. induction d; simpl; auto. Qed.

Lemma all_printable_hexadecimal_zero (d : Hexadecimal.uint) :
  all_printable (HexadecimalString.NilZero.string_of_uint d) = true.
Proof. destruct d; try reflexivity; apply all_printable_hexadecimal. Qed.

Lemma all_printable_int_str (z : Z) : all_printable (int_str z) = true.
Proof.
  unfold int_str, DecimalString.NilZero.string_of_int.
  destruct (Z.to_int z); simpl; apply all_printable_decimal_zero.
Qed.

Lemma all_printable_zeros (n : nat) :
  all_printable (string_of_list_ascii (repeat "0"%char n)) = true.
Proof. induction n; simpl; auto. Qed.

Lemma all_printable_pad_left (width : nat) (s : string) :
  all_printable s = true -> all_printable (Json.pad_left width s) = true.
Proof.
  intros Hs. unfold Json.pad_left.
  now rewrite all_printable_app, all_printable_zeros, Hs.
Qed.

Lemma all_printable_format_04x (n : N) :
  all_printable (Json.format_04x n) = true.
Proof. apply all_printable_pad_left, all_printable_hexadecimal_zero. Qed.

Lemma printable_ascii_of_N (c : N) :
  (32 <= c)%N -> (c <= 126)%N -> printable (ascii_of_N c) = true.
Proof.
  intros Hlo Hhi. unfold printable, nat_of_ascii.
  rewrite N_ascii_embedding by lia.
  apply andb_true_intro. split; apply Nat.leb_le; lia.
Qed.

Lemma all_printable_escape_code_point (c : N) :
  all_printable (Json.escape_code_point c) = true.
Proof.
  unfold Json.escape_code_point.
  case_tests; try reflexivity;
    repeat (rewrite all_printable_app || rewrite all_printable_format_04x);
    try reflexivity.
  simpl. rewrite andb_true_r.
  match goal with
  | H : (_ && _)%bool = true |- _ =>
      apply andb_prop in H; destruct H as [Hlo Hhi]
  end.
  apply N.leb_le in Hlo. apply N.leb_le in Hhi.
  now apply printable_ascii_of_N.
Qed.

Lemma all_printable_concat (sep : string) (l : list string) :
  all_printable sep = true -> Forall (fun s => all_printable s = true) l ->
  all_printable (String.concat sep l) = true.
Proof.
  intros Hsep Hl. induction Hl as [|x l Hx Hl IH]; [reflexivity|].
  destruct l as [|y l]; [exact Hx|].
  change (String.concat sep (x :: y :: l))
    with (x ++ sep ++ String.concat sep (y :: l)).
  now rewrite !all_printable_app, Hx, Hsep, IH.
Qed.

Lemma all_printable_encode_basestring_ascii (s : pystr) :
  all_printable (Json.encode_basestring_ascii s) = true.
Proof.
  unfold Json.encode_basestring_ascii.
  rewrite !all_printable_app, all_printable_concat; try reflexivity.
  apply Forall_forall. intros x Hx. apply in_map_iff in Hx.
  destruct Hx as [c [<- _]]. apply all_printable_escape_code_point.
Qed.

Lemma all_printable_float_str (f : Json.pyfloat) :
  all_printable (Json.float_str f) = true.
Proof.
  destruct f as [|[]|neg ip fp ex]; try reflexivity.
  unfold Json.float_str, Json.exponent_str.
  rewrite !all_printable_app, all_printable_decimal_zero.
  destruct neg, fp, ex; simpl;
    repeat (rewrite ?all_printable_app, ?all_printable_decimal_zero,
              ?all_printable_pad_left, ?all_printable_int_str; simpl);
    try reflexivity;
    destruct (_ <? 0)%Z; reflexivity.
Qed.

Lemma all_printable_dumps (v : Json.value) :
  all_printable (Json.dumps v) = true.
Proof.
  induction v using value_nested_ind; simpl.
  - reflexivity.
  - now destruct b.
  - apply all_printable_int_str.
  - apply all_printable_float_str.
  - apply all_printable_encode_basestring_ascii.
  - change (all_printable
              ("[" ++ String.concat ", " (map Json.dumps items) ++ "]") = true).
    rewrite !all_printable_app, all_printable_concat; try reflexivity.
    apply Forall_forall. intros x Hx. apply in_map_iff in Hx.
    destruct Hx as [y [<- Hy]].
    rewrite Forall_forall in H. now apply H.
  - change (all_printable
              ("{" ++
               String.concat ", "
                 (map (fun kv => Json.encode_basestring_ascii (fst kv) ++
                                 ": " ++ Json.dumps (snd kv)) members) ++
               "}") = true).
    rewrite !all_printable_app, all_printable_concat; try reflexivity.
    apply Forall_forall. intros x Hx. apply in_map_iff in Hx.
    destruct Hx as [kv [<- Hkv]].
    rewrite Forall_forall in H.
    now rewrite !all_printable_app, all_printable_encode_basestring_ascii,
      (H kv Hkv).
Qed.

Lemma ascii_lines_app (a b : string) :
  ascii_lines (a ++ b) = ascii_lines a && ascii_lines b.
Proof.
  induction a as [|c a IH]; simpl; [reflexivity|].
  now rewrite IH, andb_assoc.
Qed.

Lemma all_printable_ascii_lines (s : string) :
  all_printable s = true -> ascii_lines s = true.
Proof.
  induction s as [|c s IH]; simpl; [reflexivity|].
  intros H. apply andb_prop in H. destruct H as [-> Hs]. now rewrite IH.
Qed.

Lemma ascii_lines_joined_dumps (l : list Json.value) :
  ascii_lines (String.concat newline (map Json.dumps l)) = true.
Proof.
  induction l as [|x l IH]; [reflexivity|].
  destruct l as [|y l].
  - apply all_printable_ascii_lines, all_printable_dumps.
  - change (String.concat newline (map Json.dumps (x :: y :: l)))
      with (Json.dumps x ++ newline ++
            String.concat newline (map Json.dumps (y :: l))).
    rewrite !ascii_lines_app, IH.
    now rewrite (all_printable_ascii_lines _ (all_printable_dumps x)).
Qed.

End Printable.

(** X14.  Whatever the records hold (any Unicode text, control characters,
    quotes), the payload [convert_to_line_delimited_json] returns is made of
    printable ASCII characters and newlines only. *)
Theorem convert_to_line_delimited_json_ascii
  (data : Json.value) (payload : string) :
  ending (convert_to_line_delimited_json data) = Returned payload ->
  ascii_lines payload = true.
Proof.
  unfold convert_to_line_delimited_json, iterate, bind, emit, ret,
    raise, ending.
  destruct data; simpl; try discriminate;
    intros [= <-]; apply ascii_lines_joined_dumps.
Qed.

Lemma convert_to_line_delimited_json_ascii_witness :
  ascii_lines
    (String.concat newline
       (map Json.dumps
          [Json.JStr [68; 111; 110; 269; 10; 128512; 127; 34]%N;
           Stubs.player 20000441 "Bradley" "Beal" "PHO" "SG" 18]))
  = true.
Proof.
  apply (convert_to_line_delimited_json_ascii
           (Json.JArr
              [Json.JStr [68; 111; 110; 269; 10; 128512; 127; 34]%N;
               Stubs.player 20000441 "Bradley" "Beal" "PHO" "SG" 18])).
  reflexivity.
Defined.

(** ** The credential on the console *)

(** X15.  For every configured credential, the script prints it in clear as
    the first line of its output, and a run that gets past the bucket
    creation prints it a second time, inside the request headers, before
    the request is sent. *)
Theorem script_prints_the_credential
  (w : World) (fuel : nat) (cfg : Config) (key : string) :
  api_key cfg = Some key ->
  hd_error (trace (script w fuel cfg))
  = Some (Print ("Loaded API Key: " ++ key)) /\
  (bucket_failure_caught w cfg = true ->
   exists before after,
     trace (script w fuel cfg) =
     (before ++ PrintHeaders (Some key) ::
      RequestsGet (nba_endpoint cfg) (Some key) :: after)%list).
Proof.
  intros Hkey. unfold script. rewrite bind_emit. cbn [trace fst].
  rewrite Hkey. split; [reflexivity|].
  intros Hbucket.
  destruct (main_holds_fetch w fuel cfg Hbucket) as [pre [post ->]].
  rewrite fetch_nba_players_run. cbv zeta. rewrite Hkey.
  exists (Print ("Loaded API Key: " ++ str_of_optional (Some key)) ::
          pre ++ [Call f_fetch_nba_players])%list.
  destruct (requests_get w (nba_endpoint cfg) (Some key)) as [r|e];
    [destruct (is_http_error_status r); [|destruct (body r)]
    |destruct (except_HTTPError e)];
    cbn [trace fst]; eexists;
    repeat (rewrite <- app_comm_cons || rewrite <- app_assoc);
    cbn [app]; reflexivity.
Qed.

Lemma script_prints_the_credential_witness :
  hd_error (trace (script Stubs.failing_world 2 Stubs.cfg))
  = Some (Print ("Loaded API Key: " ++ "0123456789abcdef")) /\
  (bucket_failure_caught Stubs.failing_world Stubs.cfg = true ->
   exists before after,
     trace (script Stubs.failing_world 2 Stubs.cfg) =
     (before ++ PrintHeaders (Some "0123456789abcdef") ::
      RequestsGet (nba_endpoint Stubs.cfg) (Some "0123456789abcdef") ::
      after)%list).
Proof.
  apply (script_prints_the_credential Stubs.failing_world 2 Stubs.cfg
           "0123456789abcdef").
  reflexivity.
Defined.

(** ** From the fetch to the object *)

(** X16.  In a run of [main] that gets to the fetch, when the request is
    answered with a list of at least one record (and a status that is no
    error), the object put at [raw-data/nba_player_data.jsonl] in the
    configured bucket holds exactly the records that were fetched: its
    lines are their serializations, one per record, in the order of the
    response. *)
Theorem main_uploads_what_it_fetched
  (w : World) (cfg : Config) (r : response)
  (record : Json.value) (records : list Json.value) :
  bucket_failure_caught w cfg = true ->
  requests_get w (nba_endpoint cfg) (api_key cfg) = Ok r ->
  is_http_error_status r = false ->
  body r = Some (Json.JArr (record :: records)) ->
  forall fuel,
  exists payload,
    In (S3PutObject (bucket_name cfg) "raw-data/nba_player_data.jsonl" payload)
       (trace (main w fuel cfg)) /\
    lines payload = map Json.dumps (record :: records).
Proof.
  intros Hbucket Hget Hstatus Hbody fuel.
  pose proof (fetch_nba_players_returns_document w (api_key cfg)
                (nba_endpoint cfg) r (Json.JArr (record :: records))
                Hget Hstatus Hbody) as Hfetch.
  exists (String.concat newline (map Json.dumps (record :: records))).
  split.
  - rewrite (main_run w fuel cfg (Json.JArr (record :: records)) Hbucket)
      by now rewrite Hfetch.
    cbv zeta. cbn [trace fst Json.truthy List.length Nat.eqb negb].
    destruct (upload_of_records w cfg (record :: records)) as [line ->].
    set (tq := trace (query_athena w fuel (glue_database_name cfg)
                        (glue_table_name cfg) (athena_output_location cfg))).
    set (t1 := trace (create_s3_bucket w (bucket_name cfg) (region cfg))).
    set (t2 := trace (create_glue_database w cfg)).
    set (t3 := trace (fetch_nba_players w (api_key cfg) (nba_endpoint cfg))).
    set (t5 := trace (create_glue_table w cfg)).
    set (t6 := trace (configure_athena w cfg)).
    cbn [In]; rewrite ?in_app_iff; cbn [In];
      rewrite ?in_app_iff; cbn [In]; rewrite ?in_app_iff; cbn [In];
      auto 20.
  - apply lines_concat, Forall_forall. intros s Hs.
    change (In s (map Json.dumps (record :: records))) in Hs.
    apply in_map_iff in Hs. destruct Hs as [v [<- _]]. apply dumps_one_line.
Qed.

Lemma main_uploads_what_it_fetched_witness :
  exists payload,
    In (S3PutObject (bucket_name Stubs.cfg) "raw-data/nba_player_data.jsonl"
          payload)
       (trace (main (Stubs.world Stubs.two_players ["SUCCEEDED"]
                       Stubs.count_row) 2 Stubs.cfg)) /\
    lines payload =
    map Json.dumps
      [Stubs.player 20000441 "Bradley" "Beal" "PHO" "SG" 18;
       Stubs.player 20000442 "John" "Wall" "LAC" "PG" 11].
Proof.
  apply (main_uploads_what_it_fetched
           (Stubs.world Stubs.two_players ["SUCCEEDED"] Stubs.count_row)
           Stubs.cfg (Stubs.ok_response Stubs.two_players)
           (Stubs.player 20000441 "Bradley" "Beal" "PHO" "SG" 18)
           [Stubs.player 20000442 "John" "Wall" "LAC" "PG" 11]).
  - reflexivity.
  - reflexivity.
  - reflexivity.
  - reflexivity.
Defined.

(** ** The polling loop has no bound *)

Lemma wait_for_query_still_polling (w : World) (id : string) (d : nat) :
  forall k,
    (forall j, j < d ->
       exists s, athena_get_query_execution w id (k + j) = Ok s /\
                 terminal s = false) ->
    wait_for_query w d id k =
    (List.concat (repeat [AthenaGetQueryExecution id; Sleep 1] d), Running).
Proof.
  induction d as [|d IH]; intros k Hgo; [reflexivity|].
  rewrite wait_for_query_step.
  destruct (Hgo 0 ltac:(lia)) as [s [Hs Hnt]].
  rewrite Nat.add_0_r in Hs. rewrite Hs, Hnt.
  rewrite (IH (S k)).
  - reflexivity.
  - intros j Hj. destruct (Hgo (S j) ltac:(lia)) as [s' [Hs' Hnt']].
    exists s'. split; [|assumption].
    now replace (S k + j) with (k + S j) by lia.
Qed.

(** X17.  [query_athena] never gives up polling: for every number [m], if
    the first [m] polls all report states that are not terminal, then after
    these [m] polls, each followed by a sleep of one second, the function
    has neither returned nor raised and has not asked for results; it is
    about to poll again. *)
Theorem query_athena_never_gives_up
  (w : World) (database table output_location id : string) (m : nat) :
  athena_start_query_execution w (count_query database table) database
    output_location = Ok id ->
  polls_continue w id m ->
  query_athena w m database table output_location =
  (([Call f_query_athena;
     AthenaStartQueryExecution (count_query database table) database
       output_location;
     Print ("Query Execution ID: " ++ id)] ++
    List.concat (repeat [AthenaGetQueryExecution id; Sleep 1] m))%list,
   Running).
Proof.
  intros Hstart Hgo.
  rewrite query_athena_run. cbv zeta. rewrite Hstart.
  rewrite (wait_for_query_still_polling w id m 0 Hgo). reflexivity.
Qed.

Lemma query_athena_never_gives_up_witness :
  query_athena Stubs.never_settling_world 50 "demo_db" "players"
    "s3://demo-lake/athena-results/" =
  (([Call f_query_athena;
     AthenaStartQueryExecution (count_query "demo_db" "players") "demo_db"
       "s3://demo-lake/athena-results/";
     Print ("Query Execution ID: " ++ "q-1")] ++
    List.concat (repeat [AthenaGetQueryExecution "q-1"; Sleep 1] 50))%list,
   Running).
Proof.
  apply (query_athena_never_gives_up Stubs.never_settling_world
           "demo_db" "players" "s3://demo-lake/athena-results/" "q-1" 50).
  - reflexivity.
  - intros j Hj. exists "RUNNING". split; [|reflexivity].
    unfold Stubs.never_settling_world, Stubs.world, Stubs.poll_from.
    cbn [athena_get_query_execution]. now destruct j.
Defined.
